(** * Picard: Linux theme detection, symlink relocation and Vorbis date tags

    A shallow embedding of [picard/ui/theme_detect.py] and of the file
    relocation and Vorbis date helpers exercised by the test-suite, with the
    properties of the specification proved over it.

    Python code is embedded as follows.
    - A function with side effects is a computation in the monad [M St]:
      it takes the mutable state, and yields either a value or a raised
      exception, together with the new state.
    - [try: ... except (A, B): ...] is [try_except] with the predicate that
      recognises the listed exception classes.
    - A block of statements that may [return] early yields a [flow]:
      [Return v], or [Fallthrough] when its last statement is reached.
    - Objects of the D-Bus binding (connection, interface, message) are
      records of the results of their methods: what the outside world
      answers, which may be an exception. *)

From Stdlib Require Import ZArith String Ascii List Bool Lia.
From Stdlib Require Import Decimal DecimalNat DecimalString.
From stdpp Require Import base option list gmap strings.

Import ListNotations.
Local Open Scope string_scope.
Local Open Scope Z_scope.

(* ===================================================================== *)
(** * Python primitives *)
(* ===================================================================== *)

Module Py.

(** [errno] values of the [OSError] family that the code names. *)
Inductive errno := EPERM | ENOENT | EEXIST | EACCES | ENOTDIR.

(** Exceptions (subclasses of [Exception]).  Since PEP 3151,
    [FileNotFoundError] is [OSError] with [errno = ENOENT]. *)
Inductive exn :=
| RuntimeError
| AttributeError
| TypeError
| IndexError
| OSError (code : errno)
| CalledProcessError (returncode : Z)
| OtherException (name : string).

Definition FileNotFoundError : exn := OSError ENOENT.

Inductive result (A : Type) :=
| Ret (a : A)
| Raise (e : exn).
Arguments Ret {A} a.
Arguments Raise {A} e.

(** Values that travel in a D-Bus reply. *)
Inductive pyval :=
| PyNone
| PyBool (b : bool)
| PyInt (z : Z)
| PyStr (s : string).

(** [bool(v)]. *)
Definition truthy (v : pyval) : bool :=
  match v with
  | PyNone => false
  | PyBool b => b
  | PyInt z => negb (z =? 0)
  | PyStr s => negb (String.eqb s EmptyString)
  end.

(** [v == n] for an [int] literal [n]: [bool] is a subclass of [int]. *)
Definition eq_int (v : pyval) (n : Z) : bool :=
  match v with
  | PyInt z => z =? n
  | PyBool b => (if b then 1 else 0) =? n
  | _ => false
  end.

(** ** Strings (ASCII) *)

Definition lower_ascii (c : ascii) : ascii :=
  let n := nat_of_ascii c in
  if (Nat.leb 65 n && Nat.leb n 90)%bool then ascii_of_nat (n + 32) else c.

(** [s.lower()]. *)
Fixpoint lower (s : string) : string :=
  match s with
  | EmptyString => EmptyString
  | String c r => String (lower_ascii c) (lower r)
  end.

(** [s.startswith(p)]. *)
Fixpoint startswith (p s : string) : bool :=
  match p, s with
  | EmptyString, _ => true
  | String a p', String b s' => (Ascii.eqb a b && startswith p' s')%bool
  | String _ _, EmptyString => false
  end.

(** [needle in hay]. *)
Fixpoint contains (needle hay : string) : bool :=
  (startswith needle hay ||
   match hay with
   | EmptyString => false
   | String _ r => contains needle r
   end)%bool.

(** Whitespace of [str.strip()] on ASCII text: TAB..CR, FS..US, space. *)
Definition is_space (c : ascii) : bool :=
  let n := nat_of_ascii c in
  ((Nat.leb 9 n && Nat.leb n 13) || (Nat.leb 28 n && Nat.leb n 32))%bool.

Fixpoint lstrip_with (p : ascii -> bool) (s : string) : string :=
  match s with
  | EmptyString => EmptyString
  | String c r => if p c then lstrip_with p r else s
  end.

Fixpoint rstrip_with (p : ascii -> bool) (s : string) : string :=
  match s with
  | EmptyString => EmptyString
  | String c r =>
      match rstrip_with p r with
      | EmptyString => if p c then EmptyString else String c EmptyString
      | r' => String c r'
      end
  end.

Definition strip_with (p : ascii -> bool) (s : string) : string :=
  rstrip_with p (lstrip_with p s).

(** [s.strip()]. *)
Definition strip (s : string) : string := strip_with is_space s.

Definition quote_chars (c : ascii) : bool :=
  (Ascii.eqb c "'"%char || Ascii.eqb c (ascii_of_nat 34))%bool.

(** [s.strip(q)] where [q] holds the single and the double quote. *)
Definition strip_quotes (s : string) : string := strip_with quote_chars s.

(** [s.split(sep, 1)] for a one-character separator: the text before
    the first separator and the text after it, or the whole string. *)
Fixpoint split1 (sep : ascii) (s : string) : string * option string :=
  match s with
  | EmptyString => (EmptyString, None)
  | String c r =>
      if Ascii.eqb c sep then (EmptyString, Some r)
      else let '(a, b) := split1 sep r in (String c a, b)
  end.

(** [s.split(sep)] for a one-character separator. *)
Fixpoint split (sep : ascii) (s : string) : list string :=
  match s with
  | EmptyString => [EmptyString]
  | String c r =>
      if Ascii.eqb c sep then EmptyString :: split sep r
      else match split sep r with
           | [] => [String c EmptyString]
           | w :: ws => String c w :: ws
           end
  end.

(** [sep not in s]. *)
Fixpoint lacks (sep : ascii) (s : string) : bool :=
  match s with
  | EmptyString => true
  | String c r => (negb (Ascii.eqb c sep) && lacks sep r)%bool
  end.

(** [c.isdigit()] and [s.isdigit()] on ASCII text (true of the empty
    string here). *)
Definition is_digit (c : ascii) : bool :=
  let n := nat_of_ascii c in (Nat.leb 48 n && Nat.leb n 57)%bool.

Fixpoint all_digits (s : string) : bool :=
  match s with
  | EmptyString => true
  | String c r => (is_digit c && all_digits r)%bool
  end.

End Py.

Import Py.

(* ===================================================================== *)
(** * State and exception monad *)
(* ===================================================================== *)

Definition M (St A : Type) : Type := St -> result A * St.

Definition ret {St A} (a : A) : M St A := fun s => (Ret a, s).

Definition raise {St A} (e : exn) : M St A := fun s => (Raise e, s).

Definition bind {St A B} (m : M St A) (k : A -> M St B) : M St B :=
  fun s =>
    match m s with
    | (Ret a, s') => k a s'
    | (Raise e, s') => (Raise e, s')
    end.

(** [try: body except <classes>: handler]: an exception of [body] that
    [catches] recognises runs [handler] in the state the body left. *)
Definition try_except {St A} (body : M St A) (catches : exn -> bool)
    (handler : exn -> M St A) : M St A :=
  fun s =>
    match body s with
    | (Ret a, s') => (Ret a, s')
    | (Raise e, s') => if catches e then handler e s' else (Raise e, s')
    end.

(** An outside answer that may be an exception. *)
Definition lift {St A} (r : result A) : M St A := fun s => (r, s).

Definition get {St} : M St St := fun s => (Ret s, s).
Definition put {St} (s : St) : M St unit := fun _ => (Ret tt, s).

Declare Scope py_scope.
Delimit Scope py_scope with py.
Notation "x <- c1 ;; c2" := (bind c1 (fun x => c2))
  (at level 100, c1 at next level, right associativity) : py_scope.
Notation "c1 ;; c2" := (bind c1 (fun _ => c2))
  (at level 100, right associativity) : py_scope.
Local Open Scope py_scope.

(** Exception class tests of the [except] clauses. *)
Definition any_Exception (_ : exn) : bool := true.

Definition is_OSError (e : exn) : bool :=
  match e with OSError _ => true | _ => false end.

(** [try: body except <classes>: handler else: orelse].  The [else]
    clause runs after a body that ended normally and is not protected by
    the [except] clause. *)
Definition try_except_else {St A B} (body : M St A) (catches : exn -> bool)
    (handler : exn -> M St B) (orelse : A -> M St B) : M St B :=
  fun s =>
    match body s with
    | (Ret a, s') => orelse a s'
    | (Raise e, s') => if catches e then handler e s' else (Raise e, s')
    end.

(** How a block of statements ends: by a [return v], or by reaching its
    last statement. *)
Inductive flow (A : Type) :=
| Return (v : A)
| Fallthrough.
Arguments Return {A} v.
Arguments Fallthrough {A}.

(* ===================================================================== *)
(** * picard/ui/theme_detect.py *)
(* ===================================================================== *)

(** ** The Qt D-Bus binding and the process environment *)

(** [QDBusMessage.MessageType]. *)
Inductive MessageType :=
| InvalidMessage | MethodCallMessage | ReplyMessage | ErrorMessage | SignalMessage.

Definition MessageType_eqb (a b : MessageType) : bool :=
  match a, b with
  | InvalidMessage, InvalidMessage
  | MethodCallMessage, MethodCallMessage
  | ReplyMessage, ReplyMessage
  | ErrorMessage, ErrorMessage
  | SignalMessage, SignalMessage => true
  | _, _ => false
  end.

(** A reply object: what [reply.type()] and [reply.arguments()] give. *)
Record QDBusMessage := {
  type : result MessageType;
  arguments : result (list pyval)
}.

(** An interface object: what [isValid()] and [call(...)] give. *)
Record QDBusInterface := {
  isValid : result bool;
  call : list string -> result QDBusMessage
}.

Record QDBusConnection := {
  isConnected : result bool
}.

(** The object [subprocess.run(..., capture_output=True, text=True)]
    returns. *)
Record CompletedProcess := {
  stdout : string
}.

(** What the machine answers.  [subprocess_run argv] is
    [subprocess.run(argv, check=True)]: [CalledProcessError] on a non-zero
    exit status, [FileNotFoundError] when the program is missing.
    [open_text p] is the text file at [p] as the lines a [for] loop reads,
    with the error that interrupts the reading, if any. *)
Record environment := {
  sessionBus : result QDBusConnection;
  new_QDBusInterface : string -> string -> string -> result QDBusInterface;
  subprocess_run : list string -> result CompletedProcess;
  environ : gmap string string;
  home : string;
  path_exists : string -> bool;
  open_text : string -> result (list string * option exn)
}.

(** What the module does to the outside, in the order it does it. *)
Inductive event :=
| EvConstruct (id : nat)
| EvDBusCall (args : list string)
| EvSubprocess (argv : list string)
| EvLogDebug (msg : string).

Definition is_subprocess_event (ev : event) : bool :=
  match ev with EvSubprocess _ => true | _ => false end.

Definition is_construct_event (ev : event) : bool :=
  match ev with EvConstruct _ => true | _ => false end.

Definition is_dbus_call_event (ev : event) : bool :=
  match ev with EvDBusCall _ => true | _ => false end.

(** [except (RuntimeError, AttributeError, TypeError)]. *)
Definition is_dbus_error (e : exn) : bool :=
  match e with
  | RuntimeError | AttributeError | TypeError => true
  | _ => false
  end.

(** [except (subprocess.CalledProcessError, FileNotFoundError)]. *)
Definition is_subprocess_error (e : exn) : bool :=
  match e with
  | CalledProcessError _ | OSError ENOENT => true
  | _ => false
  end.

(** [result is True]. *)
Definition is_True (r : option bool) : bool :=
  match r with Some true => true | _ => false end.

(** [value and isinstance(value, str) and "dark" in value.lower()]. *)
Definition names_dark (value : pyval) : bool :=
  (truthy value &&
   match value with
   | PyStr s => contains "dark" (lower s)
   | _ => false
   end)%bool.

(** [reply.arguments()[0] if reply.arguments() else None]. *)
Definition first_argument (args : list pyval) : pyval :=
  match args with
  | v :: _ => v
  | [] => PyNone
  end.

(** An instance of class [DBusThemeDetector]: its attributes, and [id], the
    identity of the object ([a is b] compares identities). *)
Record DBusThemeDetector_instance := {
  id : nat;
  session_bus : option QDBusConnection;
  portal_interface : option QDBusInterface;
  gnome_interface : option QDBusInterface
}.

(** The state of the module: the global [_dbus_detector], the identity the
    next object gets, and the events so far. *)
Record world := {
  _dbus_detector : option DBusThemeDetector_instance;
  next_id : nat;
  trace : list event
}.

Definition emit (ev : event) : M world unit :=
  fun s => (Ret tt, {| _dbus_detector := _dbus_detector s;
                       next_id := next_id s;
                       trace := trace s ++ [ev] |}).

(** [log.debug(msg)]. *)
Definition log_debug (msg : string) : M world unit := emit (EvLogDebug msg).

(** [iface.call(a1, ..., an)]: the call is recorded, then answered. *)
Definition dbus_call (iface : QDBusInterface) (args : list string)
  : M world QDBusMessage :=
  emit (EvDBusCall args) ;; lift (call iface args).

(** ** class DBusThemeDetector *)

Module DBusThemeDetector.

Section WithEnvironment.
Context (env : environment).

Definition _initialize_dbus (self : DBusThemeDetector_instance)
  : M world DBusThemeDetector_instance :=
  try_except
    (bus <- lift (sessionBus env) ;;
     connected <- lift (isConnected bus) ;;
     if negb connected then
       ret {| id := id self;
              session_bus := Some bus;
              portal_interface := portal_interface self;
              gnome_interface := gnome_interface self |}
     else
       portal <- lift (new_QDBusInterface env
                         "org.freedesktop.portal.Desktop"
                         "/org/freedesktop/portal/desktop"
                         "org.freedesktop.portal.Settings") ;;
       gnome <- lift (new_QDBusInterface env
                        "ca.desrt.dconf"
                        "/ca/desrt/dconf/Writer/user"
                        "ca.desrt.dconf.Writer") ;;
       ret {| id := id self;
              session_bus := Some bus;
              portal_interface := Some portal;
              gnome_interface := Some gnome |})
    any_Exception
    (fun _ =>
       ret {| id := id self;
              session_bus := None;
              portal_interface := None;
              gnome_interface := None |}).

(** [DBusThemeDetector()]: a fresh object, then [__init__]. *)
Definition __init__ : M world DBusThemeDetector_instance :=
  s <- get ;;
  put {| _dbus_detector := _dbus_detector s;
         next_id := S (next_id s);
         trace := trace s ++ [EvConstruct (next_id s)] |} ;;
  _initialize_dbus {| id := next_id s;
                      session_bus := None;
                      portal_interface := None;
                      gnome_interface := None |}.

End WithEnvironment.

Definition detect_freedesktop_portal_color_scheme
    (self : DBusThemeDetector_instance) : M world (option bool) :=
  try_except_else
    (match portal_interface self with
     | None => ret (Return None)
     | Some iface =>
         valid <- lift (isValid iface) ;;
         if negb valid then ret (Return None)
         else
           reply <- dbus_call iface
                      ["Read"; "org.freedesktop.appearance"; "color-scheme"] ;;
           ty <- lift (type reply) ;;
           if MessageType_eqb ty ErrorMessage then ret (Return None)
           else
             args <- lift (arguments reply) ;;
             let value := first_argument args in
             if eq_int value 1 then ret (Return (Some true))
             else if eq_int value 2 then ret (Return (Some false))
             else ret Fallthrough
     end)
    is_dbus_error
    (fun _ => ret None)
    (fun fl => match fl with
               | Return v => ret v
               | Fallthrough => ret None
               end).

Definition detect_gnome_color_scheme_dbus
    (self : DBusThemeDetector_instance) : M world (option bool) :=
  fl <- try_except
          (match gnome_interface self with
           | None => ret (Return None)
           | Some iface =>
               valid <- lift (isValid iface) ;;
               if negb valid then ret (Return None)
               else
                 reply <- dbus_call iface
                            ["Read"; "/org/gnome/desktop/interface/color-scheme"] ;;
                 ty <- lift (type reply) ;;
                 if negb (MessageType_eqb ty ErrorMessage) then
                   args <- lift (arguments reply) ;;
                   let value := first_argument args in
                   if names_dark value then ret (Return (Some true))
                   else if truthy value then ret (Return (Some false))
                   else ret Fallthrough
                 else ret Fallthrough
           end)
          is_dbus_error
          (fun _ => ret Fallthrough) ;;
  match fl with
  | Return v => ret v
  | Fallthrough =>
      (* Try gtk-theme as fallback *)
      fl2 <- try_except
               (match gnome_interface self with
                | None => raise AttributeError
                | Some iface =>
                    reply <- dbus_call iface
                               ["Read"; "/org/gnome/desktop/interface/gtk-theme"] ;;
                    ty <- lift (type reply) ;;
                    if negb (MessageType_eqb ty ErrorMessage) then
                      args <- lift (arguments reply) ;;
                      let value := first_argument args in
                      if names_dark value then ret (Return true)
                      else ret Fallthrough
                    else ret Fallthrough
                end)
               is_dbus_error
               (fun _ => ret Fallthrough) ;;
      match fl2 with
      | Return b => ret (Some b)
      | Fallthrough => ret None
      end
  end.

End DBusThemeDetector.

(** ** Module-level functions *)

Section theme_detect.
Context (env : environment).

Definition set_dbus_detector (d : option DBusThemeDetector_instance)
  : M world unit :=
  fun s => (Ret tt, {| _dbus_detector := d;
                       next_id := next_id s;
                       trace := trace s |}).

Definition get_dbus_detector : M world DBusThemeDetector_instance :=
  s <- get ;;
  match _dbus_detector s with
  | None =>
      d <- DBusThemeDetector.__init__ env ;;
      set_dbus_detector (Some d) ;;
      ret d
  | Some d => ret d
  end.

Definition detect_freedesktop_color_scheme_dbus : M world bool :=
  try_except_else
    (detector <- get_dbus_detector ;;
     DBusThemeDetector.detect_freedesktop_portal_color_scheme detector)
    is_dbus_error
    (fun _ => ret false)
    (fun result => ret (is_True result)).

Definition detect_gnome_color_scheme_dbus : M world bool :=
  try_except_else
    (detector <- get_dbus_detector ;;
     DBusThemeDetector.detect_gnome_color_scheme_dbus detector)
    is_dbus_error
    (fun _ => ret false)
    (fun result => ret (is_True result)).

(** [subprocess.run(argv, capture_output=True, text=True, check=True)]. *)
Definition run (argv : list string) : M world CompletedProcess :=
  emit (EvSubprocess argv) ;; lift (subprocess_run env argv).

Definition gsettings_get (key : string) : M world (option string) :=
  try_except
    (result <- run ["gsettings"; "get"; "org.gnome.desktop.interface"; key] ;;
     ret (Some (strip_quotes (strip (stdout result)))))
    is_subprocess_error
    (fun _ =>
       log_debug ("gsettings get " ++ key ++ " failed.") ;;
       ret None).

(** [value and "dark" in value.lower()] for [value : str | None]. *)
Definition str_names_dark (value : option string) : bool :=
  match value with
  | Some v => (negb (String.eqb v EmptyString) && contains "dark" (lower v))%bool
  | None => false
  end.

Definition detect_gnome_color_scheme_dark : M world bool :=
  (* Try D-Bus first (secure method) *)
  fl <- try_except
          (detector <- get_dbus_detector ;;
           result <- DBusThemeDetector.detect_gnome_color_scheme_dbus detector ;;
           match result with
           | Some b => ret (Return b)
           | None => ret Fallthrough
           end)
          any_Exception
          (fun _ =>
             log_debug "Unable to detect gnome color scheme with dbus." ;;
             ret Fallthrough) ;;
  match fl with
  | Return b => ret b
  | Fallthrough =>
      (* Fallback to subprocess method (legacy support) *)
      value <- gsettings_get "color-scheme" ;;
      if str_names_dark value then
        log_debug "Detected GNOME color-scheme: dark" ;;
        ret true
      else ret false
  end.

Definition detect_gnome_gtk_theme_dark : M world bool :=
  theme <- gsettings_get "gtk-theme" ;;
  if str_names_dark theme then
    log_debug ("Detected GNOME gtk-theme: "
               ++ match theme with Some t => t | None => "None" end
               ++ " (dark)") ;;
    ret true
  else ret false.

(** The loop [for line in f] of the KDE and LXQt detectors: the first
    line that, stripped, starts with [key] and whose value names a dark
    theme ends the function with [True]. *)
Fixpoint scan_config (key what : string) (lines : list string)
  : M world (flow bool) :=
  match lines with
  | [] => ret Fallthrough
  | line :: rest =>
      if startswith key (strip line) then
        match snd (split1 "="%char line) with
        | None => raise IndexError
        | Some v =>
            let scheme := lower (strip v) in
            if contains "dark" scheme then
              log_debug ("Detected " ++ what ++ ": " ++ scheme ++ " (dark)") ;;
              ret (Return true)
            else scan_config key what rest
        end
      else scan_config key what rest
  end.

(** [with p.open() as f: for line in f: ...]. *)
Definition scan_file (p key what : string) : M world (flow bool) :=
  f <- lift (open_text env p) ;;
  fl <- scan_config key what (fst f) ;;
  match fl, snd f with
  | Return b, _ => ret (Return b)
  | Fallthrough, Some e => raise e
  | Fallthrough, None => ret Fallthrough
  end.

Definition detect_kde_colorscheme_dark : M world bool :=
  let kdeglobals := home env ++ "/.config/kdeglobals" in
  fl <- (if path_exists env kdeglobals then
           try_except
             (scan_file kdeglobals "ColorScheme=" "KDE ColorScheme")
             is_OSError
             (fun _ =>
                log_debug "KDE ColorScheme detection failed: " ;;
                ret Fallthrough)
         else ret Fallthrough) ;;
  match fl with
  | Return b => ret b
  | Fallthrough => ret false
  end.

Definition detect_xfce_dark_theme : M world bool :=
  fl <- try_except
          (result <- run ["xfconf-query"; "-c"; "xsettings"; "-p"; "/Net/ThemeName"] ;;
           let theme := lower (strip (stdout result)) in
           if contains "dark" theme then
             log_debug ("Detected XFCE theme: " ++ theme ++ " (dark)") ;;
             ret (Return true)
           else ret Fallthrough)
          is_subprocess_error
          (fun _ =>
             log_debug "xfconf-query detection failed." ;;
             ret Fallthrough) ;;
  match fl with
  | Return b => ret b
  | Fallthrough => ret false
  end.

Definition detect_lxqt_dark_theme : M world bool :=
  let lxqt_conf := home env ++ "/.config/lxqt/session.conf" in
  fl <- (if path_exists env lxqt_conf then
           try_except
             (scan_file lxqt_conf "theme=" "LXQt theme")
             is_OSError
             (fun _ =>
                log_debug "LXQt theme detection failed: " ;;
                ret Fallthrough)
         else ret Fallthrough) ;;
  match fl with
  | Return b => ret b
  | Fallthrough => ret false
  end.

Definition detect_freedesktop_color_scheme_dark : M world bool :=
  (* Try D-Bus first (secure method) *)
  fl <- try_except
          (detector <- get_dbus_detector ;;
           result <- DBusThemeDetector.detect_freedesktop_portal_color_scheme detector ;;
           match result with
           | Some b => ret (Return b)
           | None => ret Fallthrough
           end)
          any_Exception
          (fun _ =>
             log_debug "Unable to detect `freedesktop` color scheme with dbus." ;;
             ret Fallthrough) ;;
  match fl with
  | Return b => ret b
  | Fallthrough =>
      (* Fallback to subprocess method (legacy support) *)
      fl2 <- try_except
               (result <- run ["gsettings"; "get"; "org.freedesktop.appearance";
                               "color-scheme"] ;;
                let value := strip_quotes (strip (stdout result)) in
                if String.eqb value "1" then
                  log_debug "Detected org.freedesktop.appearance.color-scheme: dark (1)" ;;
                  ret (Return true)
                else if String.eqb value "0" then
                  log_debug "Detected org.freedesktop.appearance.color-scheme: light (0)" ;;
                  ret (Return false)
                else ret Fallthrough)
               is_subprocess_error
               (fun _ =>
                  log_debug "gsettings get org.freedesktop.appearance.color-scheme failed." ;;
                  ret Fallthrough) ;;
      match fl2 with
      | Return b => ret b
      | Fallthrough => ret false
      end
  end.

(** [os.environ.get(k)]. *)
Definition environ_get (k : string) : option string := environ env !! k.

(** Truth value of a [str | None]: set and not empty. *)
Definition nonempty (v : option string) : bool :=
  match v with
  | Some s => negb (String.eqb s EmptyString)
  | None => false
  end.

(** [v.lower()] for a [v] already known to be a string. *)
Definition lower_of (v : option string) : string :=
  match v with
  | Some s => lower s
  | None => EmptyString
  end.

Definition get_current_desktop_environment : string :=
  let de := environ_get "XDG_CURRENT_DESKTOP" in
  if nonempty de then lower_of de
  (* Fallbacks for KDE, XFCE, LXQt *)
  else if match environ_get "KDE_FULL_SESSION" with
          | Some v => String.eqb v "true"
          | None => false
          end
  then "kde"
  else if nonempty (environ_get "XDG_SESSION_DESKTOP")
  then lower_of (environ_get "XDG_SESSION_DESKTOP")
  else if nonempty (environ_get "DESKTOP_SESSION")
  then lower_of (environ_get "DESKTOP_SESSION")
  else EmptyString.

(* Wrappers for DE-specific detection *)

Definition detect_gnome_dark_wrapper : M world bool :=
  if (String.eqb get_current_desktop_environment "gnome"
      || String.eqb get_current_desktop_environment "unity")%bool
  then
    a <- detect_gnome_color_scheme_dark ;;
    if a then ret true else detect_gnome_gtk_theme_dark
  else ret false.

Definition detect_kde_dark_wrapper : M world bool :=
  if String.eqb get_current_desktop_environment "kde"
  then detect_kde_colorscheme_dark
  else ret false.

Definition detect_xfce_dark_wrapper : M world bool :=
  if String.eqb get_current_desktop_environment "xfce"
  then detect_xfce_dark_theme
  else ret false.

Definition detect_lxqt_dark_wrapper : M world bool :=
  if String.eqb get_current_desktop_environment "lxqt"
  then detect_lxqt_dark_theme
  else ret false.

(** The list of dark mode detection strategies in order of priority. *)
Definition get_linux_dark_mode_strategies : list (M world bool) :=
  [ (* Pure D-Bus methods (will gracefully fail if D-Bus unavailable) *)
    detect_freedesktop_color_scheme_dbus;
    detect_gnome_color_scheme_dbus;
    (* Hybrid methods (D-Bus with subprocess fallback) *)
    detect_freedesktop_color_scheme_dark;
    detect_gnome_dark_wrapper;
    detect_kde_dark_wrapper;
    detect_xfce_dark_wrapper;
    detect_lxqt_dark_wrapper ].

End theme_detect.

(** Events of a given kind that a run added to the trace. *)
Definition subprocess_runs (tr : list event) : list event :=
  List.filter is_subprocess_event tr.

Definition constructions (tr : list event) : list event :=
  List.filter is_construct_event tr.

Definition dbus_calls (tr : list event) : list event :=
  List.filter is_dbus_call_event tr.

Definition initial_world : world :=
  {| _dbus_detector := None; next_id := 0%nat; trace := [] |}.

(** ** The D-Bus probes of the detectors

    The first two statements of the [try] block that opens each of the four
    detectors: fetch the detector, ask it. *)

Definition freedesktop_probe (env : environment) : M world (option bool) :=
  detector <- get_dbus_detector env ;;
  DBusThemeDetector.detect_freedesktop_portal_color_scheme detector.

Definition gnome_probe (env : environment) : M world (option bool) :=
  detector <- get_dbus_detector env ;;
  DBusThemeDetector.detect_gnome_color_scheme_dbus detector.

(** The command lines of the two subprocess fallbacks. *)
Definition freedesktop_gsettings_argv : list string :=
  ["gsettings"; "get"; "org.freedesktop.appearance"; "color-scheme"].

Definition gnome_gsettings_argv : list string :=
  ["gsettings"; "get"; "org.gnome.desktop.interface"; "color-scheme"].

(** ** Sample machines *)

Definition reply_with (args : list pyval) : QDBusMessage :=
  {| type := Ret ReplyMessage; arguments := Ret args |}.

Definition error_reply : QDBusMessage :=
  {| type := Ret ErrorMessage; arguments := Ret [] |}.

(** An interface that answers every call with the same message. *)
Definition constant_interface (m : QDBusMessage) : QDBusInterface :=
  {| isValid := Ret true; call := fun _ => Ret m |}.

(** A machine with a session bus on which every interface is [iface], where
    [gsettings] prints [out] and no configuration file exists. *)
Definition machine (iface : QDBusInterface) (out : string) : environment :=
  {| sessionBus := Ret {| isConnected := Ret true |};
     new_QDBusInterface := fun _ _ _ => Ret iface;
     subprocess_run := fun _ => Ret {| stdout := out |};
     environ := ∅;
     home := "/home/user";
     path_exists := fun _ => false;
     open_text := fun _ => Raise FileNotFoundError |}.

(** A machine without D-Bus. *)
Definition machine_without_bus (out : string) : environment :=
  {| sessionBus := Raise (OtherException "D-Bus not available");
     new_QDBusInterface := fun _ _ _ => Raise RuntimeError;
     subprocess_run := fun _ => Ret {| stdout := out |};
     environ := ∅;
     home := "/home/user";
     path_exists := fun _ => false;
     open_text := fun _ => Raise FileNotFoundError |}.


(** ** What the portal answered, in the words of the method's docstring *)

Inductive portal_answer :=
| NoInterface                 (* the detector has no portal interface *)
| InvalidInterface            (* [isValid()] is false *)
| ErrorReply                  (* the reply is an error message *)
| Value (v : pyval)           (* first argument of the reply; [PyNone] if none *)
| Raised (e : exn).           (* a step of the exchange raised [e] *)

Definition portal_read_args : list string :=
  ["Read"; "org.freedesktop.appearance"; "color-scheme"].

Definition portal_answer_of (self : DBusThemeDetector_instance) : portal_answer :=
  match portal_interface self with
  | None => NoInterface
  | Some iface =>
      match isValid iface with
      | Raise e => Raised e
      | Ret false => InvalidInterface
      | Ret true =>
          match call iface portal_read_args with
          | Raise e => Raised e
          | Ret reply =>
              match type reply with
              | Raise e => Raised e
              | Ret ErrorMessage => ErrorReply
              | Ret _ =>
                  match arguments reply with
                  | Raise e => Raised e
                  | Ret [] => Value PyNone
                  | Ret (v :: _) => Value v
                  end
              end
          end
      end
  end.

(** A detector object whose two interfaces are given. *)
Definition detector_with (portal gnome : option QDBusInterface)
  : DBusThemeDetector_instance :=
  {| id := 0%nat;
     session_bus := Some {| isConnected := Ret true |};
     portal_interface := portal;
     gnome_interface := gnome |}.

(** A dconf interface of a GNOME desktop with the given settings. *)
Definition gnome_interface_with (color_scheme gtk_theme : string) : QDBusInterface :=
  {| isValid := Ret true;
     call := fun args =>
       match args with
       | [_; key] =>
           if String.eqb key "/org/gnome/desktop/interface/color-scheme"
           then Ret (reply_with [PyStr color_scheme])
           else if String.eqb key "/org/gnome/desktop/interface/gtk-theme"
           then Ret (reply_with [PyStr gtk_theme])
           else Ret error_reply
       | _ => Ret error_reply
       end |}.

(** An interface whose [isValid()] raises an exception that is none of
    [RuntimeError], [AttributeError], [TypeError]. *)
Definition broken_interface : QDBusInterface :=
  {| isValid := Raise (OtherException "ValueError");
     call := fun _ => Ret error_reply |}.

Definition dark_portal_machine : environment :=
  machine (constant_interface (reply_with [PyInt 1])) "'0'".

Definition broken_machine : environment :=
  machine broken_interface "'0'".


(* ===================================================================== *)
(** * File relocation: symbolic links *)
(* ===================================================================== *)

(** ** posixpath *)

Module posixpath.

Definition isabs (p : string) : bool := startswith "/" p.

Fixpoint endswith_sep (p : string) : bool :=
  match p with
  | EmptyString => false
  | String c EmptyString => Ascii.eqb c "/"%char
  | String _ r => endswith_sep r
  end.

(** [join(a, b)]. *)
Definition join (a b : string) : string :=
  if startswith "/" b then b
  else if (String.eqb a EmptyString || endswith_sep a)%bool then a ++ b
  else a ++ "/" ++ b.

(** [sep.join(comps)]. *)
Fixpoint join_with (sep : string) (comps : list string) : string :=
  match comps with
  | [] => EmptyString
  | [c] => c
  | c :: rest => c ++ sep ++ join_with sep rest
  end.

(** POSIX keeps exactly two leading slashes, and folds three or more
    into one. *)
Definition initial_slashes (path : string) : nat :=
  if startswith "/" path then
    if (startswith "//" path && negb (startswith "///" path))%bool
    then 2%nat else 1%nat
  else 0%nat.

Definition last_is_dotdot (comps : list string) : bool :=
  match List.rev comps with
  | c :: _ => String.eqb c ".."
  | [] => false
  end.

Definition is_nil {A} (l : list A) : bool :=
  match l with [] => true | _ => false end.

(** One turn of the loop of [normpath] over the components. *)
Definition normpath_step (initial : nat) (new_comps : list string)
    (comp : string) : list string :=
  if (String.eqb comp EmptyString || String.eqb comp ".")%bool then new_comps
  else if (negb (String.eqb comp "..")
           || (Nat.eqb initial 0 && is_nil new_comps)
           || (negb (is_nil new_comps) && last_is_dotdot new_comps))%bool
  then (new_comps ++ [comp])%list
  else List.removelast new_comps.

Fixpoint slashes (n : nat) : string :=
  match n with
  | O => EmptyString
  | S n' => String "/"%char (slashes n')
  end.

Definition normpath (path : string) : string :=
  if String.eqb path EmptyString then "."
  else
    let initial := initial_slashes path in
    let comps := List.fold_left (normpath_step initial) (split "/"%char path) [] in
    let p := slashes initial ++ join_with "/" comps in
    if String.eqb p EmptyString then "." else p.

(** [abspath(path)] in the working directory [cwd]. *)
Definition abspath (cwd path : string) : string :=
  if isabs path then normpath path else normpath (join cwd path).

(** A component of a path holds no slash. *)
Definition no_slash (s : string) : bool := lacks "/"%char s.

(** A component that [normpath] keeps in an absolute path. *)
Definition plain (c : string) : bool :=
  (no_slash c && negb (String.eqb c EmptyString)
   && negb (String.eqb c ".") && negb (String.eqb c ".."))%bool.

End posixpath.

(** ** The file system *)

Inductive node :=
| RegularFile
| Directory
| Symlink (target : string).

(** Directory entries by path, and the working directory. *)
Record filesystem := {
  cwd : string;
  nodes : gmap string node
}.

Module os.

(** [os.path.islink(p)]. *)
Definition islink (p : string) : M filesystem bool :=
  fun fs => (Ret match nodes fs !! p with
                 | Some (Symlink _) => true
                 | _ => false
                 end, fs).

(** [os.readlink(p)]. *)
Definition readlink (p : string) : M filesystem string :=
  fun fs => (match nodes fs !! p with
             | Some (Symlink t) => Ret t
             | Some _ => Raise (OSError EACCES)
             | None => Raise (OSError ENOENT)
             end, fs).

(** Links are followed at most [fuel] times. *)
Fixpoint resolves (fuel : nat) (fs : filesystem) (p : string) : bool :=
  match nodes fs !! p with
  | None => false
  | Some (Symlink t) =>
      match fuel with
      | O => false
      | S fuel' => resolves fuel' fs (posixpath.abspath (cwd fs) t)
      end
  | Some _ => true
  end.

(** [os.path.exists(p)]: false for a missing entry and for a broken
    link. *)
Definition exists_ (p : string) : M filesystem bool :=
  fun fs => (Ret (resolves 40 fs p), fs).

(** [os.path.abspath(p)]. *)
Definition abspath (p : string) : M filesystem string :=
  fun fs => (Ret (posixpath.abspath (cwd fs) p), fs).

(** [os.remove(p)]. *)
Definition remove (p : string) : M filesystem unit :=
  fun fs =>
    match nodes fs !! p with
    | None => (Raise (OSError ENOENT), fs)
    | Some Directory => (Raise (OSError EPERM), fs)
    | Some _ => (Ret tt, {| cwd := cwd fs; nodes := delete p (nodes fs) |})
    end.

(** [os.symlink(src, dst)]. *)
Definition symlink (src dst : string) : M filesystem unit :=
  fun fs =>
    match nodes fs !! dst with
    | Some _ => (Raise (OSError EEXIST), fs)
    | None => (Ret tt, {| cwd := cwd fs;
                          nodes := <[dst := Symlink src]> (nodes fs) |})
    end.

End os.

(** ** picard/file.py: File._create_symlink and File._relocate_if_required *)

(** The settings the relocation reads. *)
Record relocation_settings := {
  rename_files : bool;
  move_files : bool;
  symlink_files : bool;
  move_files_to : string
}.

Module File.

Section Relocation.

(** The tag container, the naming of the target, the creation of the
    target directory, the rename-or-move of a file, and what is done
    with a link that points somewhere else: all in parts of
    [picard/file.py] that the symlink tests replace or never reach. *)
Context {Metadata : Type}.
Context (make_filename : string -> Metadata -> relocation_settings -> string).
Context (_ensure_parent_dir : string -> M filesystem unit).
Context (_rename : string -> Metadata -> relocation_settings -> M filesystem string).
Context (replace_link : string -> string -> M filesystem unit).

(** Modelled from the spec: [File._create_symlink(src, dst)] of
    [picard/file.py], which is not among the sources.  Creation is
    idempotent (a link at [dst] whose target is [src] after [abspath] is
    left alone) and detects conflicts (an entry at [dst] that is not a
    link is [OSError(EEXIST)]); otherwise the link is created. *)
Definition _create_symlink (src dst : string) : M filesystem unit :=
  is_link <- os.islink dst ;;
  if is_link then
    current <- os.readlink dst ;;
    a <- os.abspath current ;;
    b <- os.abspath src ;;
    if String.eqb a b then ret tt
    else replace_link src dst
  else
    present <- os.exists_ dst ;;
    if present then raise (OSError EEXIST)
    else os.symlink src dst.

(** Modelled from the spec: [File._relocate_if_required(old_filename,
    metadata, config)] of [picard/file.py], which is not among the
    sources.  Conditional file-system operations guarded by
    configuration lookups: in symlink mode a link named by
    [make_filename] is created and its name returned, or the old name
    if that fails with [OSError]; in rename or move mode the file is
    renamed; with no mode set the name comes back unchanged. *)
Definition _relocate_if_required (old_filename : string)
    (metadata : Metadata) (config : relocation_settings)
  : M filesystem string :=
  if symlink_files config then
    let new_filename := make_filename old_filename metadata config in
    try_except
      (_ensure_parent_dir new_filename ;;
       _create_symlink old_filename new_filename ;;
       ret new_filename)
      is_OSError
      (fun _ => ret old_filename)
  else if (rename_files config || move_files config)%bool then
    _rename old_filename metadata config
  else ret old_filename.

End Relocation.

End File.


(** Paths made of components that [normpath] keeps. *)
Definition Plain (comps : list string) : Prop :=
  Forall (fun c => posixpath.plain c = true) comps.

(* ===================================================================== *)
(** * Vorbis comments: the date tag *)
(* ===================================================================== *)

Module Vorbis.

(** The setting the date handling reads. *)
Record settings := {
  disable_date_sanitization_formats : list string
}.

(** The format key of Vorbis comments in that setting. *)
Definition DATE_SANITIZATION_FORMAT : string := "vorbis".

(** Modelled from the spec: [is_date_sanitization_enabled()] of the
    Vorbis file class in [picard/formats/vorbis.py], which is not among
    the sources.  Sanitization is enabled unless 'vorbis' is listed in
    [disable_date_sanitization_formats]. *)
Definition is_date_sanitization_enabled (config : settings) : bool :=
  negb (List.existsb (String.eqb DATE_SANITIZATION_FORMAT)
          (disable_date_sanitization_formats config)).

(** A component of a date as a number: decimal digits, surrounded by
    blanks at most; an empty component counts as zero. *)
Definition read_component (c : string) : option nat :=
  let c := strip c in
  if String.eqb c EmptyString then Some 0%nat
  else option_map Nat.of_uint (NilZero.uint_of_string c).

Fixpoint read_components (cs : list string) : option (list nat) :=
  match cs with
  | [] => Some []
  | c :: rest =>
      match read_component c, read_components rest with
      | Some n, Some ns => Some (n :: ns)
      | _, _ => None
      end
  end.

Fixpoint zeros (n : nat) : string :=
  match n with
  | O => EmptyString
  | S n' => String "0"%char (zeros n')
  end.

(** [n] in decimal, padded with zeros on the left to [width] digits. *)
Definition pad (width n : nat) : string :=
  let digits := NilZero.string_of_uint (Nat.to_uint n) in
  zeros (width - String.length digits) ++ digits.

Fixpoint drop_leading_zeros (l : list nat) : list nat :=
  match l with
  | O :: rest => drop_leading_zeros rest
  | _ => l
  end.

(** The components without the zeros at the end. *)
Definition strip_trailing_zeros (comps : list nat) : list nat :=
  List.rev (drop_leading_zeros (List.rev comps)).

(** Year, year-month or year-month-day. *)
Definition format_date (comps : list nat) : option string :=
  match comps with
  | [] => Some EmptyString
  | [y] => Some (pad 4 y)
  | [y; m] => Some (pad 4 y ++ "-" ++ pad 2 m)
  | [y; m; d] => Some (pad 4 y ++ "-" ++ pad 2 m ++ "-" ++ pad 2 d)
  | _ => None
  end.

(** Modelled from the spec: [sanitize_date(datestr)] of [picard/util],
    which is not among the sources.  The zero-valued trailing components
    of the date are stripped: "2005-12-00" becomes "2005-12", "2005-00-00"
    becomes "2005", "0000-00-00" becomes the empty string, and a date
    whose day is not zero keeps its zero month.  A text that is not a
    date of at most three numbers is left as it is. *)
Definition sanitize_date (datestr : string) : string :=
  match read_components (split "-"%char datestr) with
  | Some comps =>
      match format_date (strip_trailing_zeros comps) with
      | Some s => s
      | None => datestr
      end
  | None => datestr
  end.

(** The text of a date given by year, month and day. *)
Definition date_text (y m d : nat) : string :=
  pad 4 y ++ "-" ++ pad 2 m ++ "-" ++ pad 2 d.

(** Tags of a file, and the metadata of Picard: names with their
    values. *)
Definition tags := list (string * list string).

Definition upper_ascii (c : ascii) : ascii :=
  let n := nat_of_ascii c in
  if (Nat.leb 97 n && Nat.leb n 122)%bool then ascii_of_nat (n - 32) else c.

Fixpoint upper (s : string) : string :=
  match s with
  | EmptyString => EmptyString
  | String c r => String (upper_ascii c) (upper r)
  end.

(** Modelled from the spec: the date handling of [OggVorbisFile._load] in
    [picard/formats/vorbis.py], which is not among the sources.  Tag
    names are read in lower case; the values of the date tag are
    sanitized when sanitization is enabled. *)
Definition _load (config : settings) (file_tags : tags) : tags :=
  List.map (fun '(origname, values) =>
              let name := lower origname in
              if (String.eqb name "date" && is_date_sanitization_enabled config)%bool
              then (name, List.map sanitize_date values)
              else (name, values))
           file_tags.

(** Modelled from the spec: the date handling of [OggVorbisFile._save] in
    [picard/formats/vorbis.py], which is not among the sources.  Tag
    names are written in upper case; the values of the date tag are
    sanitized when sanitization is enabled, and written as they are when
    it is disabled. *)
Definition _save (config : settings) (metadata : tags) : tags :=
  List.map (fun '(name, values) =>
              if (String.eqb name "date" && is_date_sanitization_enabled config)%bool
              then (upper name, List.map sanitize_date values)
              else (upper name, values))
           metadata.

End Vorbis.


(** ** Sample file systems and dates *)

Definition linked_fs : filesystem :=
  {| cwd := "/home/user";
     nodes := {[ "/c/d" := Symlink "/a/./b" ]} |}.

Definition occupied_fs : filesystem :=
  {| cwd := "/home/user";
     nodes := {[ "/dest/Album/file.mp3" := RegularFile ]} |}.

Definition sample_settings (symlink : bool) : relocation_settings :=
  {| rename_files := false;
     move_files := false;
     symlink_files := symlink;
     move_files_to := "/dest" |}.

Definition sample_make_filename
    (_ : string) (_ : unit) (_ : relocation_settings) : string :=
  "/dest/Album/file.mp3".

Definition sample_rename
    (old : string) (_ : unit) (_ : relocation_settings) : M filesystem string :=
  ret old.

Definition sanitizing : Vorbis.settings :=
  {| Vorbis.disable_date_sanitization_formats := [] |}.

Definition not_sanitizing : Vorbis.settings :=
  {| Vorbis.disable_date_sanitization_formats := ["vorbis"] |}.


(** A machine whose session bus is not connected. *)
Definition machine_disconnected : environment :=
  {| sessionBus := Ret {| isConnected := Ret false |};
     new_QDBusInterface := fun _ _ _ => Ret (constant_interface error_reply);
     subprocess_run := fun _ => Raise FileNotFoundError;
     environ := ∅;
     home := "/home/user";
     path_exists := fun _ => false;
     open_text := fun _ => Raise FileNotFoundError |}.

(** A dconf interface whose [color-scheme] read fails and whose
    [gtk-theme] is given. *)
Definition gnome_interface_gtk_only (gtk_theme : string) : QDBusInterface :=
  {| isValid := Ret true;
     call := fun args =>
       match args with
       | [_; key] =>
           if String.eqb key "/org/gnome/desktop/interface/gtk-theme"
           then Ret (reply_with [PyStr gtk_theme])
           else Ret error_reply
       | _ => Ret error_reply
       end |}.

(** A KDE session whose [kdeglobals] holds the given lines. *)
Definition kde_machine (lines : list string) : environment :=
  {| sessionBus := Raise (OtherException "D-Bus not available");
     new_QDBusInterface := fun _ _ _ => Raise RuntimeError;
     subprocess_run := fun _ => Raise FileNotFoundError;
     environ := {[ "XDG_CURRENT_DESKTOP" := "KDE" ]};
     home := "/home/user";
     path_exists := fun p => String.eqb p "/home/user/.config/kdeglobals";
     open_text := fun p =>
       if String.eqb p "/home/user/.config/kdeglobals"
       then Ret (lines, None)
       else Raise FileNotFoundError |}.


(* ===================================================================== *)
(** * Further definitions used by the properties of the detectors *)
(* ===================================================================== *)

(** [s[0]] and [s[-1]], when [s] is not empty. *)
Definition first_char (s : string) : option ascii :=
  match s with
  | EmptyString => None
  | String c _ => Some c
  end.

Fixpoint last_char (s : string) : option ascii :=
  match s with
  | EmptyString => None
  | String c EmptyString => Some c
  | String _ r => last_char r
  end.

(** The value of a configuration line, as the KDE and LXQt detectors read
    it: [line.split("=", 1)[1].strip().lower()]. *)
Definition config_value (line : string) : string :=
  match snd (split1 "="%char line) with
  | Some v => lower (strip v)
  | None => EmptyString
  end.

(** The test the loop of the KDE and LXQt detectors applies to a line. *)
Definition line_names_dark (key line : string) : bool :=
  (startswith key (strip line) && contains "dark" (config_value line))%bool.

Definition kdeglobals_path (env : environment) : string :=
  home env ++ "/.config/kdeglobals".

Definition lxqt_conf_path (env : environment) : string :=
  home env ++ "/.config/lxqt/session.conf".

Definition gtk_theme_gsettings_argv : list string :=
  ["gsettings"; "get"; "org.gnome.desktop.interface"; "gtk-theme"].






(** A run of [f] from [s] keeps the detector singleton: a detector already
    in the global stays there and none is constructed; otherwise exactly
    one is constructed and left in the global. *)
Definition keeps_singleton (f : M world bool) (s : world) : Prop :=
  let s1 := snd (f s) in
  match _dbus_detector s with
  | Some d0 =>
      _dbus_detector s1 = Some d0
      /\ constructions (trace s1) = constructions (trace s)
  | None =>
      exists d,
        _dbus_detector s1 = Some d
        /\ constructions (trace s1)
           = (constructions (trace s) ++ [EvConstruct (id d)])%list
  end.


(* ===================================================================== *)
(** * test/conftest.py: the defaulting settings section *)
(* ===================================================================== *)

Module conftest.

(** [KeyError]. *)
Definition KeyError : exn := OtherException "KeyError".

(** An entry of the option registry of [picard.config]: only its default
    is read here. *)
Record Option_ (V : Type) := { default_ : V }.
Arguments default_ {V} _.

(** An instance of [_Section]: a [dict] with the name of its section. *)
Record _Section (V : Type) := {
  _section_name : string;
  items : gmap string V
}.
Arguments _section_name {V} _.
Arguments items {V} _.

Section Defaulting.

(** The values of settings, and [Option.get(section, name)] of
    [picard.config], which is not among the sources: the registered option,
    or [None]. *)
Context {V : Type}.
Context (Option_get : string -> string -> option (Option_ V)).

(** [_make_defaulting_section(section_name, initial)]. *)
Definition _make_defaulting_section (section_name : string)
    (initial : option (gmap string V)) : _Section V :=
  {| _section_name := section_name;
     items := match initial with Some data => data | None => ∅ end |}.

Definition __getitem__ (self : _Section V) (name : string) : result V :=
  match items self !! name with
  | Some v => Ret v
  | None =>
      match Option_get (_section_name self) name with
      | Some opt => Ret (default_ opt)
      | None => Raise KeyError
      end
  end.

(** [self[name] = value], inherited from [dict]. *)
Definition __setitem__ (self : _Section V) (name : string) (value : V)
  : _Section V :=
  {| _section_name := _section_name self;
     items := <[name := value]> (items self) |}.

Definition raw_value (self : _Section V) (name : string) : option V :=
  items self !! name.

Definition key (self : _Section V) (name : string) : string :=
  _section_name self ++ "/" ++ name.

(** [with suppress(KeyError): del self[name]]. *)
Definition remove (self : _Section V) (name : string) : _Section V :=
  {| _section_name := _section_name self;
     items := delete name (items self) |}.

End Defaulting.

End conftest.


(** A registry with one option, [setting/rename_files], whose default is
    [False]; and a section that sets two names. *)
Definition sample_registry (section name : string) : option (conftest.Option_ bool) :=
  if (String.eqb section "setting" && String.eqb name "rename_files")%bool
  then Some {| conftest.default_ := false |}
  else None.

Definition sample_section : conftest._Section bool :=
  conftest._make_defaulting_section "setting"
    (Some {[ "rename_files" := true; "move_files" := true ]}).


(* ===================================================================== *)
(** * Properties *)
(* ===================================================================== *)

(** ** Running computations *)

Ltac unfold_monad :=
  unfold bind, ret, raise, lift, get, put, try_except, try_except_else,
    emit, log_debug, dbus_call in *.

Lemma subprocess_runs_app tr1 tr2 :
  subprocess_runs (tr1 ++ tr2) = (subprocess_runs tr1 ++ subprocess_runs tr2)%list.
Proof. unfold subprocess_runs. apply List.filter_app. Qed.

Lemma constructions_app tr1 tr2 :
  constructions (tr1 ++ tr2) = (constructions tr1 ++ constructions tr2)%list.
Proof. unfold constructions. apply List.filter_app. Qed.

(** ** The constructor never raises *)

Lemma _initialize_dbus_total env self s :
  exists d,
    DBusThemeDetector._initialize_dbus env self s = (Ret d, s)
    /\ id d = id self.
Proof.
  unfold DBusThemeDetector._initialize_dbus. unfold_monad.
  destruct (sessionBus env) as [bus|e]; simpl; [|eauto].
  destruct (isConnected bus) as [[|]|e]; simpl; eauto.
  destruct (new_QDBusInterface env _ _ "org.freedesktop.portal.Settings")
    as [p|e]; simpl; [|eauto].
  destruct (new_QDBusInterface env _ _ "ca.desrt.dconf.Writer")
    as [g|e]; simpl; eauto.
Qed.

Lemma __init___total env s :
  exists d,
    DBusThemeDetector.__init__ env s =
      (Ret d, {| _dbus_detector := _dbus_detector s;
                 next_id := S (next_id s);
                 trace := trace s ++ [EvConstruct (next_id s)] |})
    /\ id d = next_id s.
Proof.
  unfold DBusThemeDetector.__init__. unfold bind at 1 2. unfold get, put.
  match goal with
  | |- context [DBusThemeDetector._initialize_dbus env ?self ?s'] =>
      destruct (_initialize_dbus_total env self s') as (d & Hd & Hid)
  end.
  exists d. split; [exact Hd | exact Hid].
Qed.

(** What a call of [get_dbus_detector] does, by the value of the global. *)
Lemma get_dbus_detector_spec env s :
  exists d s1,
    get_dbus_detector env s = (Ret d, s1)
    /\ _dbus_detector s1 = Some d
    /\ match _dbus_detector s with
       | None =>
           trace s1 = (trace s ++ [EvConstruct (next_id s)])%list
           /\ id d = next_id s /\ next_id s1 = S (next_id s)
       | Some d0 => d = d0 /\ s1 = s
       end.
Proof.
  unfold get_dbus_detector. unfold bind at 1. unfold get.
  destruct (_dbus_detector s) as [d0|] eqn:Hg.
  - exists d0, s. unfold ret. auto.
  - destruct (__init___total env s) as (d & Hd & Hid).
    unfold bind at 1. rewrite Hd.
    exists d. eexists. split; [reflexivity|]. simpl. auto.
Qed.

(** ** The detector methods only talk to the bus *)

Ltac run_cases :=
  repeat (cbn beta iota zeta delta [fst snd trace _dbus_detector next_id] in *;
          first [ progress unfold_monad | case_match ]).

Ltac trace_solve :=
  simpl; rewrite ?subprocess_runs_app; simpl;
  rewrite ?app_nil_r, <- ?app_assoc; simpl; auto.

Lemma portal_method_frame self s :
  let s1 := snd (DBusThemeDetector.detect_freedesktop_portal_color_scheme self s) in
  subprocess_runs (trace s1) = subprocess_runs (trace s)
  /\ _dbus_detector s1 = _dbus_detector s.
Proof.
  unfold DBusThemeDetector.detect_freedesktop_portal_color_scheme.
  run_cases; simplify_eq; simpl;
    rewrite ?subprocess_runs_app, ?app_nil_r; auto.
Qed.

Lemma gnome_method_frame self s :
  let s1 := snd (DBusThemeDetector.detect_gnome_color_scheme_dbus self s) in
  subprocess_runs (trace s1) = subprocess_runs (trace s)
  /\ _dbus_detector s1 = _dbus_detector s.
Proof.
  unfold DBusThemeDetector.detect_gnome_color_scheme_dbus.
  run_cases; simplify_eq; simpl;
    rewrite ?subprocess_runs_app, ?app_nil_r; auto.
Qed.

(** ** get_dbus_detector *)

(** C10.  [get_dbus_detector] is a memoizing singleton.  From any state the
    call returns a detector [d] and leaves it in the global
    [_dbus_detector], which is therefore not [None] afterwards.  When the
    global was [None] exactly one [DBusThemeDetector] was constructed, the
    one returned; when it held [d0] the call returns [d0] itself and
    changes nothing (nothing is constructed).  A further call returns the
    same [d] again and leaves the state as it is. *)
Theorem get_dbus_detector_singleton env s :
  exists d s1,
    get_dbus_detector env s = (Ret d, s1)
    /\ _dbus_detector s1 = Some d
    /\ match _dbus_detector s with
       | None =>
           constructions (trace s1)
           = (constructions (trace s) ++ [EvConstruct (id d)])%list
       | Some d0 => d = d0 /\ s1 = s
       end
    /\ get_dbus_detector env s1 = (Ret d, s1).
Proof.
  destruct (get_dbus_detector_spec env s) as (d & s1 & Hrun & Hglob & Hcase).
  exists d, s1. repeat split; auto.
  - destruct (_dbus_detector s).
    + exact Hcase.
    + destruct Hcase as (Htr & Hid & _).
      rewrite Htr, constructions_app, Hid. reflexivity.
  - destruct (get_dbus_detector_spec env s1) as (d' & s2 & Hrun' & _ & Hcase').
    rewrite Hglob in Hcase'. destruct Hcase' as [-> ->]. exact Hrun'.
Qed.

(** ** Hybrid detectors *)

Lemma get_dbus_detector_frame env s :
  exists d s1,
    get_dbus_detector env s = (Ret d, s1)
    /\ subprocess_runs (trace s1) = subprocess_runs (trace s).
Proof.
  destruct (get_dbus_detector_spec env s) as (d & s1 & Hrun & _ & Hcase).
  exists d, s1. split; [exact Hrun|].
  destruct (_dbus_detector s).
  - destruct Hcase as [_ ->]. reflexivity.
  - destruct Hcase as (-> & _). rewrite subprocess_runs_app. simpl.
    apply app_nil_r.
Qed.

Lemma freedesktop_hybrid_cases env s :
  match freedesktop_probe env s with
  | (Ret (Some b), s1) =>
      detect_freedesktop_color_scheme_dark env s = (Ret b, s1)
      /\ subprocess_runs (trace s1) = subprocess_runs (trace s)
  | (_, _) =>
      subprocess_runs (trace (snd (detect_freedesktop_color_scheme_dark env s)))
      = (subprocess_runs (trace s) ++ [EvSubprocess freedesktop_gsettings_argv])%list
  end.
Proof.
  unfold freedesktop_probe, detect_freedesktop_color_scheme_dark.
  destruct (get_dbus_detector_frame env s) as (d & s1 & Hget & Hfr).
  unfold bind, try_except. rewrite Hget.
  pose proof (portal_method_frame d s1) as [Hm _]. simpl in Hm.
  destruct (DBusThemeDetector.detect_freedesktop_portal_color_scheme d s1)
    as [[[b|]|e] s2]; simpl in Hm.
  - unfold ret. split; [reflexivity | congruence].
  - rewrite <- Hfr, <- Hm. unfold run, freedesktop_gsettings_argv.
    run_cases; simplify_eq; trace_solve.
  - rewrite <- Hfr, <- Hm. unfold run, freedesktop_gsettings_argv.
    run_cases; simplify_eq; trace_solve.
Qed.

Lemma gnome_hybrid_cases env s :
  match gnome_probe env s with
  | (Ret (Some b), s1) =>
      detect_gnome_color_scheme_dark env s = (Ret b, s1)
      /\ subprocess_runs (trace s1) = subprocess_runs (trace s)
  | (_, _) =>
      subprocess_runs (trace (snd (detect_gnome_color_scheme_dark env s)))
      = (subprocess_runs (trace s) ++ [EvSubprocess gnome_gsettings_argv])%list
  end.
Proof.
  unfold gnome_probe, detect_gnome_color_scheme_dark.
  destruct (get_dbus_detector_frame env s) as (d & s1 & Hget & Hfr).
  unfold bind, try_except. rewrite Hget.
  pose proof (gnome_method_frame d s1) as [Hm _]. simpl in Hm.
  destruct (DBusThemeDetector.detect_gnome_color_scheme_dbus d s1)
    as [[[b|]|e] s2]; simpl in Hm.
  - unfold ret. split; [reflexivity | congruence].
  - rewrite <- Hfr, <- Hm. unfold gsettings_get, run, gnome_gsettings_argv.
    run_cases; simplify_eq; trace_solve.
  - rewrite <- Hfr, <- Hm. unfold gsettings_get, run, gnome_gsettings_argv.
    run_cases; simplify_eq; trace_solve.
Qed.

Lemma snoc_neq_self {A} (l : list A) (x : A) : (l ++ [x])%list <> l.
Proof.
  intros H. apply (f_equal (@List.length A)) in H.
  rewrite List.length_app in H. simpl in H. lia.
Qed.

(** C3.  Each hybrid detector tries D-Bus before it spawns a subprocess.
    For [detect_freedesktop_color_scheme_dark] and for
    [detect_gnome_color_scheme_dark]: when the D-Bus probe returns [True]
    or [False], the detector returns that boolean in the state the probe
    left, and no subprocess was run; and the [gsettings] subprocess is run
    (once) exactly when the probe returns [None] or raises. *)
Theorem hybrid_detectors_try_dbus_first env s :
  (forall b s1,
      freedesktop_probe env s = (Ret (Some b), s1) ->
      detect_freedesktop_color_scheme_dark env s = (Ret b, s1)
      /\ subprocess_runs (trace s1) = subprocess_runs (trace s))
  /\ (subprocess_runs (trace (snd (detect_freedesktop_color_scheme_dark env s)))
      = (subprocess_runs (trace s) ++ [EvSubprocess freedesktop_gsettings_argv])%list
      <-> (fst (freedesktop_probe env s) = Ret None
           \/ exists e, fst (freedesktop_probe env s) = Raise e))
  /\ (forall b s1,
      gnome_probe env s = (Ret (Some b), s1) ->
      detect_gnome_color_scheme_dark env s = (Ret b, s1)
      /\ subprocess_runs (trace s1) = subprocess_runs (trace s))
  /\ (subprocess_runs (trace (snd (detect_gnome_color_scheme_dark env s)))
      = (subprocess_runs (trace s) ++ [EvSubprocess gnome_gsettings_argv])%list
      <-> (fst (gnome_probe env s) = Ret None
           \/ exists e, fst (gnome_probe env s) = Raise e)).
Proof.
  pose proof (freedesktop_hybrid_cases env s) as Hf.
  pose proof (gnome_hybrid_cases env s) as Hg.
  split; [|split; [|split]].
  - intros b s1 Hp. rewrite Hp in Hf. exact Hf.
  - destruct (freedesktop_probe env s) as [[[b|]|e] s1]; simpl.
    + destruct Hf as [-> Hf]. simpl. rewrite Hf. split.
      * intros H. symmetry in H. now apply snoc_neq_self in H.
      * intros [H|[e H]]; discriminate.
    + split; eauto.
    + split; eauto.
  - intros b s1 Hp. rewrite Hp in Hg. exact Hg.
  - destruct (gnome_probe env s) as [[[b|]|e] s1]; simpl.
    + destruct Hg as [-> Hg]. simpl. rewrite Hg. split.
      * intros H. symmetry in H. now apply snoc_neq_self in H.
      * intros [H|[e H]]; discriminate.
    + split; eauto.
    + split; eauto.
Qed.

(** On a machine whose portal answers 1 the freedesktop detector returns
    [True] from the bus and starts no process. *)
Lemma hybrid_detectors_try_dbus_first_witness :
  freedesktop_probe dark_portal_machine initial_world
  = (Ret (Some true), snd (freedesktop_probe dark_portal_machine initial_world))
  /\ detect_freedesktop_color_scheme_dark dark_portal_machine initial_world
     = (Ret true, snd (freedesktop_probe dark_portal_machine initial_world))
  /\ subprocess_runs (trace (snd (freedesktop_probe dark_portal_machine initial_world)))
     = subprocess_runs (trace initial_world).
Proof.
  split; [reflexivity|].
  apply (proj1 (hybrid_detectors_try_dbus_first dark_portal_machine initial_world)).
  reflexivity.
Defined.

(** ** Pure D-Bus detectors *)

(** C9 (amended).  The module-level detectors
    [detect_freedesktop_color_scheme_dbus] and
    [detect_gnome_color_scheme_dbus] end in the state their D-Bus probe
    left.  They return [True] exactly when the detector method returned
    exactly [True]; a [None] or [False] result, or a raised [RuntimeError],
    [AttributeError] or [TypeError], yields [False].  An exception of any
    other class raised by the probe is propagated. *)
Theorem dbus_detectors_boolean env s :
  detect_freedesktop_color_scheme_dbus env s
  = match freedesktop_probe env s with
    | (Ret r, s1) => (Ret (is_True r), s1)
    | (Raise e, s1) => (if is_dbus_error e then Ret false else Raise e, s1)
    end
  /\ detect_gnome_color_scheme_dbus env s
     = match gnome_probe env s with
       | (Ret r, s1) => (Ret (is_True r), s1)
       | (Raise e, s1) => (if is_dbus_error e then Ret false else Raise e, s1)
       end
  /\ (forall r, is_True r = true <-> r = Some true).
Proof.
  split; [|split].
  - unfold detect_freedesktop_color_scheme_dbus, try_except_else.
    fold (freedesktop_probe env).
    destruct (freedesktop_probe env s) as [[r|e] s1]; [reflexivity|].
    destruct (is_dbus_error e); reflexivity.
  - unfold detect_gnome_color_scheme_dbus, try_except_else.
    fold (gnome_probe env).
    destruct (gnome_probe env s) as [[r|e] s1]; [reflexivity|].
    destruct (is_dbus_error e); reflexivity.
  - intros [[|]|]; simpl; split; congruence.
Qed.

(** C9 as stated fails: on a machine whose portal interface raises a
    [ValueError] from [isValid()], the detector returns no boolean, it
    propagates the exception. *)
Lemma dbus_detector_propagates_other_exception :
  fst (detect_freedesktop_color_scheme_dbus broken_machine initial_world)
  = Raise (OtherException "ValueError")
  /\ ~ (exists b : bool,
         fst (detect_freedesktop_color_scheme_dbus broken_machine initial_world)
         = Ret b).
Proof.
  split; [reflexivity|]. intros [b Hb]. vm_compute in Hb. discriminate.
Qed.

(** ** DBusThemeDetector.detect_freedesktop_portal_color_scheme *)

Lemma eq_int_1_2 v : eq_int v 1 = true -> eq_int v 2 = false.
Proof.
  destruct v as [|[|]|z|s]; simpl; try discriminate; auto.
  intros H. apply Z.eqb_eq in H. subst. reflexivity.
Qed.

(** The result of the method as a function of what the portal answered. *)
Lemma portal_method_result self s :
  fst (DBusThemeDetector.detect_freedesktop_portal_color_scheme self s)
  = match portal_answer_of self with
    | Value v =>
        if eq_int v 1 then Ret (Some true)
        else if eq_int v 2 then Ret (Some false)
        else Ret None
    | Raised e => if is_dbus_error e then Ret None else Raise e
    | NoInterface | InvalidInterface | ErrorReply => Ret None
    end.
Proof.
  unfold DBusThemeDetector.detect_freedesktop_portal_color_scheme,
    portal_answer_of, portal_read_args, try_except_else.
  unfold bind, dbus_call, emit, lift, ret. simpl.
  repeat (case_match; simpl in *; simplify_eq); reflexivity.
Qed.

(** C5.  The portal method is tri-state.  It returns [True] exactly when
    the first argument of a (valid, non-error) reply equals 1, [False]
    exactly when it equals 2, and [None] in the other cases the docstring
    and the code name: any other value (0 included), an empty argument
    list, an error reply, an invalid or missing interface, or a
    [RuntimeError], [AttributeError] or [TypeError] raised on the way. *)
Theorem portal_color_scheme_tristate self s :
  let r := fst (DBusThemeDetector.detect_freedesktop_portal_color_scheme self s) in
  let a := portal_answer_of self in
  (r = Ret (Some true) <-> exists v, a = Value v /\ eq_int v 1 = true)
  /\ (r = Ret (Some false) <-> exists v, a = Value v /\ eq_int v 2 = true)
  /\ (r = Ret None <->
        (exists v, a = Value v /\ eq_int v 1 = false /\ eq_int v 2 = false)
        \/ a = ErrorReply \/ a = InvalidInterface \/ a = NoInterface
        \/ exists e, a = Raised e /\ is_dbus_error e = true)
  /\ first_argument [] = PyNone /\ eq_int PyNone 1 = false /\ eq_int PyNone 2 = false
  /\ eq_int (PyInt 0) 1 = false /\ eq_int (PyInt 0) 2 = false.
Proof.
  intros r a. subst r a. rewrite portal_method_result.
  destruct (portal_answer_of self) as [| | |v|e].
  - repeat split; try reflexivity; try (intros H; discriminate H);
      try (intros (v & H & _); discriminate H); auto.
  - repeat split; try reflexivity; try (intros H; discriminate H);
      try (intros (v & H & _); discriminate H); auto.
  - repeat split; try reflexivity; try (intros H; discriminate H);
      try (intros (v & H & _); discriminate H); auto.
  - destruct (eq_int v 1) eqn:H1.
    + pose proof (eq_int_1_2 v H1) as H2.
      repeat split; try reflexivity; try (intros H; discriminate H); eauto.
      * intros (v' & Hv & H2'). injection Hv as <-. congruence.
      * intros [(v' & Hv & H1' & _)|[H|[H|[H|(e & H & _)]]]];
          try discriminate H. injection Hv as <-. congruence.
    + destruct (eq_int v 2) eqn:H2.
      * repeat split; try reflexivity; try (intros H; discriminate H); eauto.
        -- intros (v' & Hv & H1'). injection Hv as <-. congruence.
        -- intros [(v' & Hv & _ & H2')|[H|[H|[H|(e & H & _)]]]];
             try discriminate H. injection Hv as <-. congruence.
      * repeat split; try reflexivity; try (intros H; discriminate H); eauto.
        -- intros (v' & Hv & H1'). injection Hv as <-. congruence.
        -- intros (v' & Hv & H2'). injection Hv as <-. congruence.
  - destruct (is_dbus_error e) eqn:He.
    + repeat split; try reflexivity; try (intros H; discriminate H);
        try (intros (v & H & _); discriminate H).
      intros _. right. right. right. right. eauto.
    + repeat split; try reflexivity; try (intros H; discriminate H);
        try (intros (v & H & _); discriminate H).
      intros [(v' & Hv & _)|[H|[H|[H|(e' & H & He')]]]];
        try discriminate. injection H as <-. congruence.
Qed.

(** ** DBusThemeDetector.detect_gnome_color_scheme_dbus *)

(** Any non-empty [color-scheme] value settles the answer: the method
    returns whether it names a dark scheme, after a single call. *)
Lemma gnome_color_scheme_value_decides iface ty args self s :
  gnome_interface self = Some iface ->
  isValid iface = Ret true ->
  call iface ["Read"; "/org/gnome/desktop/interface/color-scheme"]
  = Ret {| type := Ret ty; arguments := Ret args |} ->
  ty <> ErrorMessage ->
  truthy (first_argument args) = true ->
  DBusThemeDetector.detect_gnome_color_scheme_dbus self s
  = (Ret (Some (names_dark (first_argument args))),
     {| _dbus_detector := _dbus_detector s;
        next_id := next_id s;
        trace := trace s
                 ++ [EvDBusCall ["Read"; "/org/gnome/desktop/interface/color-scheme"]] |}).
Proof.
  intros Hi Hv Hc Hty Ht.
  unfold DBusThemeDetector.detect_gnome_color_scheme_dbus.
  rewrite Hi. unfold bind, try_except, dbus_call, emit, lift, ret. simpl.
  rewrite Hv. simpl. rewrite Hc. simpl.
  destruct ty; try congruence; simpl; rewrite Ht;
    destruct (names_dark (first_argument args)); reflexivity.
Qed.

(** When the [color-scheme] read yields an error reply, [gtk-theme] is read
    and a theme whose name contains "dark" gives [True]. *)
Lemma gnome_error_reply_reads_gtk_theme iface theme self s :
  gnome_interface self = Some iface ->
  isValid iface = Ret true ->
  call iface ["Read"; "/org/gnome/desktop/interface/color-scheme"]
  = Ret error_reply ->
  call iface ["Read"; "/org/gnome/desktop/interface/gtk-theme"]
  = Ret (reply_with [PyStr theme]) ->
  contains "dark" (lower theme) = true ->
  DBusThemeDetector.detect_gnome_color_scheme_dbus self s
  = (Ret (Some true),
     {| _dbus_detector := _dbus_detector s;
        next_id := next_id s;
        trace := (trace s
                  ++ [EvDBusCall ["Read"; "/org/gnome/desktop/interface/color-scheme"]])
                 ++ [EvDBusCall ["Read"; "/org/gnome/desktop/interface/gtk-theme"]] |}).
Proof.
  intros Hi Hv Hc Hg Hd.
  unfold DBusThemeDetector.detect_gnome_color_scheme_dbus.
  rewrite Hi. unfold bind, try_except, dbus_call, emit, lift, ret. simpl.
  rewrite Hv. simpl. rewrite Hc. simpl. rewrite Hg. simpl.
  unfold names_dark. simpl. rewrite Hd.
  destruct theme; [discriminate Hd | reflexivity].
Qed.

(** C6.  On a GNOME desktop whose [color-scheme] is "default" and whose
    [gtk-theme] is "Adwaita-dark", the method answers [False] after reading
    [color-scheme] only: [gtk-theme] is never read. *)
Theorem gnome_default_color_scheme_skips_gtk_theme :
  DBusThemeDetector.detect_gnome_color_scheme_dbus
    (detector_with None (Some (gnome_interface_with "default" "Adwaita-dark")))
    initial_world
  = (Ret (Some false),
     {| _dbus_detector := None;
        next_id := 0%nat;
        trace := [EvDBusCall ["Read"; "/org/gnome/desktop/interface/color-scheme"]] |}).
Proof. reflexivity. Qed.

(** ** get_linux_dark_mode_strategies *)

(** C4.  The strategy list has exactly seven entries: the two pure D-Bus
    detectors (freedesktop, then GNOME), the hybrid freedesktop detector,
    then the GNOME, KDE, XFCE and LXQt wrappers, in that order. *)
Theorem linux_dark_mode_strategies_order env :
  get_linux_dark_mode_strategies env
  = [ detect_freedesktop_color_scheme_dbus env;
      detect_gnome_color_scheme_dbus env;
      detect_freedesktop_color_scheme_dark env;
      detect_gnome_dark_wrapper env;
      detect_kde_dark_wrapper env;
      detect_xfce_dark_wrapper env;
      detect_lxqt_dark_wrapper env ]
  /\ List.length (get_linux_dark_mode_strategies env) = 7%nat.
Proof. split; reflexivity. Qed.

(** ** Splitting a text at a separator *)

Lemma split_lacks sep a : lacks sep a = true -> split sep a = [a].
Proof.
  induction a as [|c a IH]; simpl; [reflexivity|].
  intros H. apply andb_true_iff in H as [Hc Ha].
  apply negb_true_iff in Hc. rewrite Hc, (IH Ha). reflexivity.
Qed.

Lemma split_app_lacks sep a r :
  lacks sep a = true ->
  split sep (a ++ String sep r) = a :: split sep r.
Proof.
  induction a as [|c a IH]; intros H.
  - change (EmptyString ++ String sep r) with (String sep r).
    cbn [split]. rewrite Ascii.eqb_refl. reflexivity.
  - change (String c a ++ String sep r) with (String c (a ++ String sep r)).
    cbn [lacks] in H. apply andb_true_iff in H as [Hc Ha].
    apply negb_true_iff in Hc. cbn [split]. rewrite Hc, (IH Ha). reflexivity.
Qed.

(** ** posixpath: [abspath] is idempotent *)

Section posixpath_facts.
Import posixpath.

Lemma split_join comps :
  comps <> [] ->
  Forall (fun c => no_slash c = true) comps ->
  split "/"%char (join_with "/" comps) = comps.
Proof.
  induction comps as [|c rest IH]; [congruence|].
  intros _ Hall. inversion Hall as [|? ? Hc Hrest]; subst.
  destruct rest as [|c' rest'].
  - simpl. apply split_lacks, Hc.
  - change (join_with "/" (c :: c' :: rest'))
      with (c ++ String "/"%char (join_with "/" (c' :: rest'))).
    rewrite split_app_lacks by exact Hc.
    rewrite IH; [reflexivity | congruence | exact Hrest].
Qed.

Lemma split_components s : Forall (fun c => no_slash c = true) (split "/"%char s).
Proof.
  unfold no_slash. induction s as [|c s IH]; simpl.
  - constructor; [reflexivity | constructor].
  - destruct (Ascii.eqb c "/") eqn:Hc.
    + constructor; [reflexivity | exact IH].
    + destruct (split "/"%char s) as [|w ws].
      * constructor; [simpl; rewrite Hc; reflexivity | constructor].
      * inversion IH; subst. constructor; [simpl; rewrite Hc; simpl; assumption | assumption].
Qed.

Lemma plain_parts c :
  plain c = true ->
  no_slash c = true /\ String.eqb c EmptyString = false
  /\ String.eqb c "." = false /\ String.eqb c ".." = false.
Proof.
  unfold plain. intros H.
  repeat (apply andb_true_iff in H as [H ?]).
  repeat match goal with H : negb _ = true |- _ => apply negb_true_iff in H end.
  auto.
Qed.

Lemma last_is_dotdot_plain comps : Plain comps -> last_is_dotdot comps = false.
Proof.
  unfold last_is_dotdot. intros H.
  apply Forall_rev in H. destruct (List.rev comps) as [|c l]; [reflexivity|].
  inversion H; subst. now apply plain_parts.
Qed.

Lemma Forall_removelast {A} (P : A -> Prop) (l : list A) :
  Forall P l -> Forall P (List.removelast l).
Proof.
  induction 1 as [|x l Hx Hl IH]; simpl; [constructor|].
  destruct l; [constructor|]. constructor; assumption.
Qed.

Lemma normpath_step_plain initial acc c :
  initial <> 0%nat -> Plain acc -> no_slash c = true ->
  Plain (normpath_step initial acc c).
Proof.
  intros Hi Hacc Hc. unfold normpath_step.
  destruct (String.eqb c EmptyString) eqn:He; simpl; [exact Hacc|].
  destruct (String.eqb c ".") eqn:Hd; simpl; [exact Hacc|].
  rewrite (last_is_dotdot_plain acc Hacc), andb_false_r, orb_false_r.
  apply Nat.eqb_neq in Hi. rewrite Hi. simpl. rewrite orb_false_r.
  destruct (String.eqb c "..") eqn:Hdd; simpl.
  - now apply Forall_removelast.
  - apply Forall_app. split; [exact Hacc|].
    constructor; [|constructor]. unfold plain. rewrite Hc, He, Hd, Hdd. reflexivity.
Qed.

Lemma fold_normpath_plain initial comps acc :
  initial <> 0%nat -> Plain acc ->
  Forall (fun c => no_slash c = true) comps ->
  Plain (List.fold_left (normpath_step initial) comps acc).
Proof.
  intros Hi. revert acc. induction comps as [|c comps IH]; intros acc Hacc Hall.
  - exact Hacc.
  - inversion Hall; subst. simpl. apply IH; [|assumption].
    now apply normpath_step_plain.
Qed.

Lemma fold_normpath_keeps initial comps acc :
  Plain comps ->
  List.fold_left (normpath_step initial) comps acc = (acc ++ comps)%list.
Proof.
  revert acc. induction comps as [|c comps IH]; intros acc Hall.
  - symmetry. apply app_nil_r.
  - inversion Hall as [|? ? Hc Hrest]; subst. simpl.
    apply plain_parts in Hc as (_ & He & Hd & Hdd).
    unfold normpath_step at 2. rewrite He, Hd, Hdd. simpl.
    rewrite (IH _ Hrest), <- app_assoc. reflexivity.
Qed.


Lemma join_first_not_slash comps :
  Plain comps -> startswith "/" (join_with "/" comps) = false.
Proof.
  intros H. destruct comps as [|c rest]; [reflexivity|].
  inversion H as [|? ? Hc _]; subst.
  apply plain_parts in Hc as (Hns & He & _).
  destruct c as [|ch r]; [discriminate He|].
  simpl in Hns. apply andb_true_iff in Hns as [Hch _].
  apply negb_true_iff in Hch.
  destruct rest as [|c' rest'];
    [| change (join_with "/" (String ch r :: c' :: rest'))
         with (String ch (r ++ "/" ++ join_with "/" (c' :: rest')))];
    cbn [join_with startswith]; rewrite Ascii.eqb_sym, Hch; reflexivity.
Qed.

Lemma split_join_plain comps :
  Plain comps ->
  List.fold_left (normpath_step 1) (split "/"%char (join_with "/" comps)) [] = comps
  /\ List.fold_left (normpath_step 2) (split "/"%char (join_with "/" comps)) [] = comps.
Proof.
  intros H. destruct comps as [|c rest] eqn:E; [split; reflexivity|].
  rewrite <- E in *. assert (comps <> []) as Hne by (subst; congruence).
  rewrite split_join; [| exact Hne |].
  - rewrite !fold_normpath_keeps by exact H. split; reflexivity.
  - eapply List.Forall_impl; [|exact H]. intros a Ha. now apply plain_parts in Ha.
Qed.

Lemma initial_slashes_cons n j :
  n = 1%nat \/ n = 2%nat -> startswith "/" j = false ->
  initial_slashes (slashes n ++ j) = n.
Proof.
  intros Hn Hj. unfold initial_slashes.
  destruct Hn as [-> | ->]; destruct j as [|c j']; try reflexivity;
    cbn [startswith] in Hj; rewrite andb_true_r in Hj.
  - change (slashes 1 ++ String c j') with (String "/" (String c j')).
    cbn [startswith]. rewrite Hj, Ascii.eqb_refl. reflexivity.
  - change (slashes 2 ++ String c j') with (String "/" (String "/" (String c j'))).
    cbn [startswith]. rewrite Hj, Ascii.eqb_refl. reflexivity.
Qed.

Lemma split_slashes n j :
  split "/"%char (slashes n ++ j)
  = (List.repeat EmptyString n ++ split "/"%char j)%list.
Proof. induction n as [|n IH]; [reflexivity|]. simpl. now rewrite IH. Qed.

Lemma fold_normpath_skip initial n comps acc :
  List.fold_left (normpath_step initial) (List.repeat EmptyString n ++ comps) acc
  = List.fold_left (normpath_step initial) comps acc.
Proof. induction n as [|n IH]; [reflexivity|]. simpl. exact IH. Qed.

Lemma slashes_not_empty n j :
  n = 1%nat \/ n = 2%nat -> String.eqb (slashes n ++ j) EmptyString = false.
Proof. intros [-> | ->]; reflexivity. Qed.

Lemma normpath_fixed n comps :
  n = 1%nat \/ n = 2%nat -> Plain comps ->
  normpath (slashes n ++ join_with "/" comps) = slashes n ++ join_with "/" comps.
Proof.
  intros Hn H.
  pose proof (join_first_not_slash comps H) as Hj.
  pose proof (split_join_plain comps H) as [H1 H2].
  unfold normpath.
  rewrite (slashes_not_empty n _ Hn), (initial_slashes_cons n _ Hn Hj).
  cbv zeta. rewrite split_slashes, fold_normpath_skip.
  replace (List.fold_left (normpath_step n)
             (split "/"%char (join_with "/" comps)) []) with comps
    by (destruct Hn as [-> | ->]; congruence).
  rewrite (slashes_not_empty n _ Hn). reflexivity.
Qed.

Lemma normpath_abs_shape x :
  isabs x = true ->
  exists n comps,
    (n = 1%nat \/ n = 2%nat) /\ Plain comps
    /\ normpath x = slashes n ++ join_with "/" comps.
Proof.
  intros Habs. unfold isabs in Habs.
  destruct x as [|ch r]; [discriminate Habs|].
  exists (initial_slashes (String ch r)).
  exists (List.fold_left (normpath_step (initial_slashes (String ch r)))
            (split "/"%char (String ch r)) []).
  assert (initial_slashes (String ch r) = 1%nat
          \/ initial_slashes (String ch r) = 2%nat) as Hn.
  { unfold initial_slashes. rewrite Habs. case_match; auto. }
  split; [exact Hn|]. split.
  - apply fold_normpath_plain; [lia | constructor | apply split_components].
  - unfold normpath.
    change (String.eqb (String ch r) EmptyString) with false. cbv iota zeta.
    destruct Hn as [-> | ->]; reflexivity.
Qed.

Lemma isabs_slashes n comps :
  n = 1%nat \/ n = 2%nat -> isabs (slashes n ++ join_with "/" comps) = true.
Proof. intros [-> | ->]; reflexivity. Qed.

Lemma isabs_join cwd p : isabs cwd = true -> isabs (join cwd p) = true.
Proof.
  unfold isabs, join. intros H.
  destruct (startswith "/" p) eqn:Hp; [exact Hp|].
  destruct cwd as [|c r]; [discriminate H|].
  cbn [startswith] in H. rewrite andb_true_r in H.
  destruct (_ || _)%bool;
    [ change (String c r ++ p) with (String c (r ++ p))
    | change (String c r ++ "/" ++ p) with (String c (r ++ "/" ++ p)) ];
    cbn [startswith]; rewrite H; reflexivity.
Qed.

Lemma abspath_idempotent cwd p :
  isabs cwd = true -> abspath cwd (abspath cwd p) = abspath cwd p.
Proof.
  intros Hcwd.
  assert (exists x, isabs x = true /\ abspath cwd p = normpath x) as (x & Hx & ->).
  { unfold abspath. destruct (isabs p) eqn:Hp; eauto using isabs_join. }
  destruct (normpath_abs_shape x Hx) as (n & comps & Hn & Hplain & ->).
  unfold abspath. rewrite (isabs_slashes n comps Hn).
  now apply normpath_fixed.
Qed.

End posixpath_facts.

(** ** File._create_symlink *)

(** C1.  Symlink creation is idempotent.  When [dst] is already a symbolic
    link whose target, normalized by [abspath], equals [src], the call
    returns without error and the file system is as before: the link was
    neither removed nor created anew. *)
Theorem create_symlink_idempotent
    (replace_link : string -> string -> M filesystem unit)
    (src dst target : string) (fs : filesystem) :
  posixpath.isabs (cwd fs) = true ->
  nodes fs !! dst = Some (Symlink target) ->
  posixpath.abspath (cwd fs) target = src ->
  File._create_symlink replace_link src dst fs = (Ret tt, fs).
Proof.
  intros Hcwd Hlink Htarget. subst src.
  unfold File._create_symlink, os.islink, os.readlink, os.abspath, bind, ret.
  rewrite Hlink. cbn beta iota. rewrite Hlink. cbn beta iota.
  rewrite abspath_idempotent by exact Hcwd.
  rewrite String.eqb_refl. reflexivity.
Qed.

Lemma create_symlink_idempotent_witness :
  posixpath.isabs (cwd linked_fs) = true
  /\ nodes linked_fs !! "/c/d" = Some (Symlink "/a/./b")
  /\ posixpath.abspath (cwd linked_fs) "/a/./b" = "/a/b"
  /\ File._create_symlink (fun _ _ => raise (OSError EPERM)) "/a/b" "/c/d" linked_fs
     = (Ret tt, linked_fs).
Proof.
  assert (posixpath.isabs (cwd linked_fs) = true) as H1 by reflexivity.
  assert (nodes linked_fs !! "/c/d" = Some (Symlink "/a/./b")) as H2
    by (vm_compute; reflexivity).
  assert (posixpath.abspath (cwd linked_fs) "/a/./b" = "/a/b") as H3
    by reflexivity.
  split; [exact H1 | split; [exact H2 | split; [exact H3 |]]].
  exact (create_symlink_idempotent _ "/a/b" "/c/d" "/a/./b" linked_fs H1 H2 H3).
Defined.

(** C2.  Symlink creation detects conflicts.  When [dst] exists and is not
    a symbolic link, the call raises [OSError] with errno [EEXIST] (and
    leaves the file system as it was). *)
Theorem create_symlink_conflict
    (replace_link : string -> string -> M filesystem unit)
    (src dst : string) (fs : filesystem) :
  fst (os.exists_ dst fs) = Ret true ->
  fst (os.islink dst fs) = Ret false ->
  File._create_symlink replace_link src dst fs = (Raise (OSError EEXIST), fs).
Proof.
  unfold File._create_symlink, os.islink, os.exists_, bind, ret, raise. simpl.
  intros Hex Hlink. injection Hex as Hex. injection Hlink as Hlink.
  rewrite Hlink, Hex. reflexivity.
Qed.

Lemma create_symlink_conflict_witness :
  fst (os.exists_ "/dest/Album/file.mp3" occupied_fs) = Ret true
  /\ fst (os.islink "/dest/Album/file.mp3" occupied_fs) = Ret false
  /\ File._create_symlink (fun _ _ => ret tt)
       "/src/file.mp3" "/dest/Album/file.mp3" occupied_fs
     = (Raise (OSError EEXIST), occupied_fs).
Proof.
  assert (fst (os.exists_ "/dest/Album/file.mp3" occupied_fs) = Ret true) as H1
    by (vm_compute; reflexivity).
  assert (fst (os.islink "/dest/Album/file.mp3" occupied_fs) = Ret false) as H2
    by (vm_compute; reflexivity).
  split; [exact H1 | split; [exact H2 |]].
  exact (create_symlink_conflict _ "/src/file.mp3" "/dest/Album/file.mp3"
           occupied_fs H1 H2).
Defined.

(** ** File._relocate_if_required *)

(** C7.  The path is left unchanged when no relocation applies or when
    relocation fails.  With [rename_files], [move_files] and
    [symlink_files] all false the input filename is returned and nothing
    is touched; in symlink mode, when [_create_symlink] raises [OSError],
    the input filename is returned and the error is not propagated. *)
Theorem relocate_returns_original
    {Metadata : Type}
    (make_filename : string -> Metadata -> relocation_settings -> string)
    (_ensure_parent_dir : string -> M filesystem unit)
    (_rename : string -> Metadata -> relocation_settings -> M filesystem string)
    (replace_link : string -> string -> M filesystem unit)
    (old_filename : string) (metadata : Metadata)
    (config : relocation_settings) (fs : filesystem) :
  (rename_files config = false ->
   move_files config = false ->
   symlink_files config = false ->
   File._relocate_if_required make_filename _ensure_parent_dir _rename
     replace_link old_filename metadata config fs
   = (Ret old_filename, fs))
  /\ (forall fs1 fs2 code,
        symlink_files config = true ->
        _ensure_parent_dir (make_filename old_filename metadata config) fs
        = (Ret tt, fs1) ->
        File._create_symlink replace_link old_filename
          (make_filename old_filename metadata config) fs1
        = (Raise (OSError code), fs2) ->
        File._relocate_if_required make_filename _ensure_parent_dir _rename
          replace_link old_filename metadata config fs
        = (Ret old_filename, fs2)).
Proof.
  split.
  - intros Hr Hm Hs. unfold File._relocate_if_required.
    rewrite Hs, Hr, Hm. reflexivity.
  - intros fs1 fs2 code Hs Hdir Hlink. unfold File._relocate_if_required.
    rewrite Hs. unfold try_except, bind. rewrite Hdir, Hlink. reflexivity.
Qed.

Lemma relocate_returns_original_witness :
  File._relocate_if_required sample_make_filename (fun _ => ret tt)
    sample_rename (fun _ _ => ret tt)
    "/src/file.mp3" tt (sample_settings false) occupied_fs
  = (Ret "/src/file.mp3", occupied_fs)
  /\ File._create_symlink (fun _ _ => ret tt) "/src/file.mp3"
       "/dest/Album/file.mp3" occupied_fs
     = (Raise (OSError EEXIST), occupied_fs)
  /\ File._relocate_if_required sample_make_filename (fun _ => ret tt)
       sample_rename (fun _ _ => ret tt)
       "/src/file.mp3" tt (sample_settings true) occupied_fs
     = (Ret "/src/file.mp3", occupied_fs).
Proof.
  assert (File._create_symlink (fun _ _ => ret tt) "/src/file.mp3"
            "/dest/Album/file.mp3" occupied_fs
          = (Raise (OSError EEXIST), occupied_fs)) as Hlink
    by (vm_compute; reflexivity).
  split; [|split; [exact Hlink|]].
  - apply (proj1 (relocate_returns_original sample_make_filename
                    (fun _ => ret tt) sample_rename (fun _ _ => ret tt)
                    "/src/file.mp3" tt (sample_settings false) occupied_fs));
      reflexivity.
  - apply (proj2 (relocate_returns_original sample_make_filename
                    (fun _ => ret tt) sample_rename (fun _ _ => ret tt)
                    "/src/file.mp3" tt (sample_settings true) occupied_fs)
             occupied_fs occupied_fs EEXIST);
      [reflexivity | reflexivity | exact Hlink].
Defined.

(** ** Vorbis date tags *)

Lemma strip_trailing_zeros_snoc_zero comps :
  Vorbis.strip_trailing_zeros (comps ++ [0%nat]) = Vorbis.strip_trailing_zeros comps.
Proof.
  unfold Vorbis.strip_trailing_zeros. rewrite List.rev_app_distr. reflexivity.
Qed.

Lemma strip_trailing_zeros_snoc_nonzero comps d :
  d <> 0%nat -> Vorbis.strip_trailing_zeros (comps ++ [d]) = (comps ++ [d])%list.
Proof.
  intros Hd. unfold Vorbis.strip_trailing_zeros. rewrite List.rev_app_distr.
  simpl. destruct d; [congruence|].
  simpl. rewrite List.rev_involutive. reflexivity.
Qed.

Section date_facts.
Import Vorbis.

Lemma all_digits_app a b :
  all_digits a = true -> all_digits b = true -> all_digits (a ++ b) = true.
Proof.
  induction a as [|c a IH]; [auto|].
  change (String c a ++ b) with (String c (a ++ b)).
  cbn [all_digits]. intros H Hb. apply andb_true_iff in H as [Hc Ha].
  rewrite Hc, (IH Ha Hb). reflexivity.
Qed.

Lemma all_digits_string_of_uint d :
  all_digits (NilEmpty.string_of_uint d) = true.
Proof. induction d; simpl; auto. Qed.

Lemma all_digits_zeros k : all_digits (zeros k) = true.
Proof. induction k; simpl; auto. Qed.

Lemma string_of_uint_nonempty d :
  NilZero.string_of_uint d <> EmptyString /\ all_digits (NilZero.string_of_uint d) = true.
Proof.
  destruct d; simpl; split; try discriminate; try reflexivity;
    apply all_digits_string_of_uint.
Qed.

Lemma pad_digits w n : all_digits (pad w n) = true /\ pad w n <> EmptyString.
Proof.
  unfold pad.
  destruct (string_of_uint_nonempty (Nat.to_uint n)) as [Hne Hd].
  split.
  - apply all_digits_app; [apply all_digits_zeros | exact Hd].
  - destruct (zeros _); [exact Hne | discriminate].
Qed.

Lemma digit_not_space c : is_digit c = true -> is_space c = false.
Proof.
  unfold is_digit, is_space. intros H.
  apply andb_true_iff in H as [H1 H2].
  apply Nat.leb_le in H1, H2.
  apply orb_false_iff. split; apply andb_false_iff.
  - right. apply Nat.leb_gt. lia.
  - right. apply Nat.leb_gt. lia.
Qed.

Lemma digit_not_dash c : is_digit c = true -> Ascii.eqb c "-" = false.
Proof.
  intros H. destruct (Ascii.eqb_spec c "-") as [->|]; [discriminate H | reflexivity].
Qed.

Lemma digits_lack_dash s : all_digits s = true -> lacks "-" s = true.
Proof.
  induction s as [|c s IH]; [reflexivity|]. cbn [all_digits lacks].
  intros H. apply andb_true_iff in H as [Hc Hs].
  rewrite (digit_not_dash c Hc), (IH Hs). reflexivity.
Qed.

Lemma rstrip_digits s : all_digits s = true -> rstrip_with is_space s = s.
Proof.
  induction s as [|c s IH]; [reflexivity|]. cbn [all_digits rstrip_with].
  intros H. apply andb_true_iff in H as [Hc Hs].
  rewrite (IH Hs), (digit_not_space c Hc). destruct s; reflexivity.
Qed.

Lemma strip_digits s : all_digits s = true -> strip s = s.
Proof.
  intros H. unfold strip, strip_with.
  assert (lstrip_with is_space s = s) as ->.
  { destruct s as [|c s]; [reflexivity|]. cbn [all_digits] in H.
    apply andb_true_iff in H as [Hc _]. cbn [lstrip_with].
    now rewrite (digit_not_space c Hc). }
  now apply rstrip_digits.
Qed.

Lemma uint_of_string_zeros k s :
  option_map Nat.of_uint (NilEmpty.uint_of_string (zeros k ++ s))
  = option_map Nat.of_uint (NilEmpty.uint_of_string s).
Proof.
  induction k as [|k IH]; [reflexivity|].
  change (zeros (S k) ++ s) with (String "0" (zeros k ++ s)).
  cbn [NilEmpty.uint_of_string].
  rewrite <- IH.
  destruct (NilEmpty.uint_of_string (zeros k ++ s)) as [d|]; reflexivity.
Qed.

Lemma read_component_pad w n : read_component (pad w n) = Some n.
Proof.
  destruct (pad_digits w n) as [Hd Hne].
  unfold read_component. rewrite (strip_digits _ Hd).
  destruct (String.eqb_spec (pad w n) EmptyString) as [E|_]; [contradiction|].
  assert (NilZero.uint_of_string (pad w n) = NilEmpty.uint_of_string (pad w n)) as ->.
  { unfold NilZero.uint_of_string. destruct (pad w n); [contradiction | reflexivity]. }
  unfold pad. rewrite uint_of_string_zeros.
  rewrite <- (Unsigned.of_to n) at 2.
  destruct (Nat.to_uint n) eqn:E; try (unfold NilZero.string_of_uint;
    rewrite NilEmpty.usu; reflexivity).
  reflexivity.
Qed.

Lemma split_date_text y m d :
  split "-" (date_text y m d) = [pad 4 y; pad 2 m; pad 2 d].
Proof.
  unfold date_text.
  change (pad 4 y ++ "-" ++ pad 2 m ++ "-" ++ pad 2 d)
    with (pad 4 y ++ String "-" (pad 2 m ++ String "-" (pad 2 d))).
  rewrite split_app_lacks by (apply digits_lack_dash, pad_digits).
  rewrite split_app_lacks by (apply digits_lack_dash, pad_digits).
  rewrite split_lacks by (apply digits_lack_dash, pad_digits).
  reflexivity.
Qed.

Lemma sanitize_date_text y m d :
  sanitize_date (date_text y m d)
  = match d, m, y with
    | S _, _, _ => date_text y m d
    | O, S _, _ => pad 4 y ++ "-" ++ pad 2 m
    | O, O, S _ => pad 4 y
    | O, O, O => EmptyString
    end.
Proof.
  unfold sanitize_date. rewrite split_date_text.
  cbn [read_components]. rewrite !read_component_pad.
  destruct d as [|d]; [destruct m as [|m]; [destruct y as [|y]|]|]; reflexivity.
Qed.

End date_facts.

Lemma sanitization_enabled_iff config :
  Vorbis.is_date_sanitization_enabled config = true
  <-> ~ In "vorbis" (Vorbis.disable_date_sanitization_formats config).
Proof.
  unfold Vorbis.is_date_sanitization_enabled, Vorbis.DATE_SANITIZATION_FORMAT.
  rewrite negb_true_iff. split.
  - intros H Hin. apply not_true_iff_false in H. apply H.
    apply List.existsb_exists. exists "vorbis". split; [exact Hin | reflexivity].
  - intros H. apply not_true_iff_false. intros Hex. apply H.
    apply List.existsb_exists in Hex as (x & Hin & Hx).
    apply String.eqb_eq in Hx. subst x. exact Hin.
Qed.

(** C8.  With date sanitization enabled for Vorbis ('vorbis' not listed in
    [disable_date_sanitization_formats]), loading strips the zero-valued
    trailing components of the date tag: a date with day zero loads as
    year and month, with month and day zero as the year, with all three
    zero as the empty string, and a date whose day is not zero loads
    unchanged, zero month or not.  So "2005-12-00" loads as "2005-12",
    "2005-00-00" as "2005", "0000-00-00" as the empty string, and
    "2005-00-12" and "0000-00-12" as themselves.  With 'vorbis' listed,
    saving writes the date as it is. *)
Theorem vorbis_date_sanitization_setting (config : Vorbis.settings) :
  (~ In "vorbis" (Vorbis.disable_date_sanitization_formats config) ->
   (forall y m d : nat,
       Vorbis._load config [("date", [Vorbis.date_text y m d])]
       = [("date", [match d, m, y with
                    | S _, _, _ => Vorbis.date_text y m d
                    | O, S _, _ => Vorbis.pad 4 y ++ "-" ++ Vorbis.pad 2 m
                    | O, O, S _ => Vorbis.pad 4 y
                    | O, O, O => EmptyString
                    end])])
   /\ Vorbis._load config [("date", ["2005-12-00"])] = [("date", ["2005-12"])]
   /\ Vorbis._load config [("date", ["2005-00-00"])] = [("date", ["2005"])]
   /\ Vorbis._load config [("date", ["0000-00-00"])] = [("date", [EmptyString])]
   /\ Vorbis._load config [("date", ["2005-00-12"])] = [("date", ["2005-00-12"])]
   /\ Vorbis._load config [("date", ["0000-00-12"])] = [("date", ["0000-00-12"])])
  /\ (In "vorbis" (Vorbis.disable_date_sanitization_formats config) ->
      forall raw : string,
        Vorbis._save config [("date", [raw])] = [("DATE", [raw])]).
Proof.
  split.
  - intros H. apply sanitization_enabled_iff in H.
    assert (forall y m d : nat,
               Vorbis._load config [("date", [Vorbis.date_text y m d])]
               = [("date", [match d, m, y with
                            | S _, _, _ => Vorbis.date_text y m d
                            | O, S _, _ => Vorbis.pad 4 y ++ "-" ++ Vorbis.pad 2 m
                            | O, O, S _ => Vorbis.pad 4 y
                            | O, O, O => EmptyString
                            end])]) as Hgen.
    { intros y m d. unfold Vorbis._load. cbn [List.map lower].
      change (String.eqb (lower "date") "date") with true.
      rewrite H. cbn [andb List.map]. rewrite sanitize_date_text. reflexivity. }
    split; [exact Hgen|].
    split; [exact (Hgen 2005 12 0)%nat|].
    split; [exact (Hgen 2005 0 0)%nat|].
    split; [exact (Hgen 0 0 0)%nat|].
    split; [exact (Hgen 2005 0 12)%nat | exact (Hgen 0 0 12)%nat].
  - intros H raw.
    destruct (Vorbis.is_date_sanitization_enabled config) eqn:E.
    + apply sanitization_enabled_iff in E. contradiction.
    + unfold Vorbis._save. simpl. rewrite E. reflexivity.
Qed.

Lemma vorbis_date_sanitization_setting_witness :
  (~ In "vorbis" (Vorbis.disable_date_sanitization_formats sanitizing))
  /\ Vorbis._load sanitizing [("date", ["2005-12-00"])] = [("date", ["2005-12"])]
  /\ In "vorbis" (Vorbis.disable_date_sanitization_formats not_sanitizing)
  /\ Vorbis._save not_sanitizing [("date", ["2005-12-00"])]
     = [("DATE", ["2005-12-00"])].
Proof.
  assert (~ In "vorbis" (Vorbis.disable_date_sanitization_formats sanitizing))
    as H1 by (simpl; tauto).
  assert (In "vorbis" (Vorbis.disable_date_sanitization_formats not_sanitizing))
    as H2 by (simpl; tauto).
  split; [exact H1 | split; [| split; [exact H2 |]]].
  - exact (proj1 (proj2 (proj1 (vorbis_date_sanitization_setting sanitizing) H1))).
  - exact (proj2 (vorbis_date_sanitization_setting not_sanitizing) H2
             "2005-12-00").
Defined.

(* ===================================================================== *)
(** * Cases of the test-suite, run on the model *)
(* ===================================================================== *)

(** test_detect_freedesktop_portal_color_scheme_values *)
Example portal_value_1 s :
  fst (DBusThemeDetector.detect_freedesktop_portal_color_scheme
         (detector_with (Some (constant_interface (reply_with [PyInt 1]))) None) s)
  = Ret (Some true).
Proof. reflexivity. Qed.

Example portal_value_2 s :
  fst (DBusThemeDetector.detect_freedesktop_portal_color_scheme
         (detector_with (Some (constant_interface (reply_with [PyInt 2]))) None) s)
  = Ret (Some false).
Proof. reflexivity. Qed.

Example portal_value_0 s :
  fst (DBusThemeDetector.detect_freedesktop_portal_color_scheme
         (detector_with (Some (constant_interface (reply_with [PyInt 0]))) None) s)
  = Ret None.
Proof. reflexivity. Qed.

Example portal_no_value s :
  fst (DBusThemeDetector.detect_freedesktop_portal_color_scheme
         (detector_with (Some (constant_interface (reply_with []))) None) s)
  = Ret None.
Proof. reflexivity. Qed.

(** test_detect_freedesktop_portal_color_scheme_dbus_error *)
Example portal_error_reply s :
  fst (DBusThemeDetector.detect_freedesktop_portal_color_scheme
         (detector_with (Some (constant_interface error_reply)) None) s)
  = Ret None.
Proof. reflexivity. Qed.

(** test_detect_gnome_color_scheme_dbus_dark, _light *)
Example gnome_prefer_dark s :
  fst (DBusThemeDetector.detect_gnome_color_scheme_dbus
         (detector_with None (Some (constant_interface (reply_with [PyStr "prefer-dark"])))) s)
  = Ret (Some true).
Proof. reflexivity. Qed.

Example gnome_prefer_light s :
  fst (DBusThemeDetector.detect_gnome_color_scheme_dbus
         (detector_with None (Some (constant_interface (reply_with [PyStr "prefer-light"])))) s)
  = Ret (Some false).
Proof. reflexivity. Qed.

(** test_detect_gnome_color_scheme_dbus_gtk_theme_fallback: an error reply
    for [color-scheme], then "Adwaita-dark" for [gtk-theme]. *)
Example gnome_gtk_theme_fallback :
  fst (DBusThemeDetector.detect_gnome_color_scheme_dbus
         (detector_with None (Some (gnome_interface_gtk_only "Adwaita-dark")))
         initial_world)
  = Ret (Some true)
  /\ List.length
       (dbus_calls
          (trace (snd (DBusThemeDetector.detect_gnome_color_scheme_dbus
                         (detector_with None
                            (Some (gnome_interface_gtk_only "Adwaita-dark")))
                         initial_world))))
     = 2%nat.
Proof. split; reflexivity. Qed.

Example gnome_gtk_theme_light :
  fst (DBusThemeDetector.detect_gnome_color_scheme_dbus
         (detector_with None (Some (gnome_interface_gtk_only "Yaru")))
         initial_world)
  = Ret None.
Proof. reflexivity. Qed.

(** test_dbus_detector_initialization_unavailable, _connection_failed *)
Example initialization_unavailable :
  fst (get_dbus_detector (machine_without_bus "'1'") initial_world)
  = Ret {| id := 0%nat; session_bus := None;
           portal_interface := None; gnome_interface := None |}.
Proof. reflexivity. Qed.

Example initialization_connection_failed :
  fst (get_dbus_detector machine_disconnected initial_world)
  = Ret {| id := 0%nat; session_bus := Some {| isConnected := Ret false |};
           portal_interface := None; gnome_interface := None |}.
Proof. reflexivity. Qed.

(** test_detect_freedesktop_color_scheme_dark_subprocess_fallback *)
Example hybrid_subprocess_fallback :
  fst (detect_freedesktop_color_scheme_dark (machine_without_bus "'1'") initial_world)
  = Ret true
  /\ subprocess_runs
       (trace (snd (detect_freedesktop_color_scheme_dark
                      (machine_without_bus "'1'") initial_world)))
     = [EvSubprocess freedesktop_gsettings_argv].
Proof. split; reflexivity. Qed.

(** The pure D-Bus detectors fail gracefully without a bus. *)
Example dbus_detectors_without_bus :
  fst (detect_freedesktop_color_scheme_dbus (machine_without_bus "'1'") initial_world)
  = Ret false
  /\ fst (detect_gnome_color_scheme_dbus machine_disconnected initial_world)
     = Ret false.
Proof. split; reflexivity. Qed.

(** A KDE session with a dark colour scheme. *)
Example kde_breeze_dark :
  get_current_desktop_environment (kde_machine []) = "kde"
  /\ fst (detect_kde_dark_wrapper
            (kde_machine ["[General]"; "ColorScheme=BreezeDark"; "Name=Breeze"])
            initial_world)
     = Ret true
  /\ fst (detect_kde_dark_wrapper
            (kde_machine ["[General]"; "ColorScheme=BreezeLight"])
            initial_world)
     = Ret false.
Proof. repeat split; vm_compute; reflexivity. Qed.

(** posixpath.normpath and abspath *)
Example normpath_cases :
  posixpath.normpath "/a/b/../c//d/." = "/a/c/d"
  /\ posixpath.normpath "//a" = "//a"
  /\ posixpath.normpath "///a" = "/a"
  /\ posixpath.normpath "a/.." = "."
  /\ posixpath.normpath "../a" = "../a"
  /\ posixpath.normpath "/.." = "/"
  /\ posixpath.abspath "/home/user" "x/../y" = "/home/user/y".
Proof. repeat split; reflexivity. Qed.

(** sanitize_date *)
Example sanitize_date_cases :
  List.map Vorbis.sanitize_date
    ["2005-12-00"; "2005-00-00"; "0000-00-00"; "2005-00-12"; "0000-00-12";
     "2005-12-25"; "2005"; "unknown"]
  = ["2005-12"; "2005"; EmptyString; "2005-00-12"; "0000-00-12";
     "2005-12-25"; "2005"; "unknown"].
Proof. reflexivity. Qed.

(* ===================================================================== *)
(** * Further properties of the theme detectors *)
(* ===================================================================== *)

(** ** The constructor *)

(** X1.  [DBusThemeDetector()] never raises and builds a detector that is
    whole: either both interfaces are missing, or the session bus is
    connected and both interfaces are the ones the binding built.  When
    fetching the session bus raises, the bus attribute is [None] too. *)
Theorem detector_constructed_whole env s :
  exists d,
    DBusThemeDetector.__init__ env s
    = (Ret d, {| _dbus_detector := _dbus_detector s;
                 next_id := S (next_id s);
                 trace := trace s ++ [EvConstruct (next_id s)] |})
    /\ id d = next_id s
    /\ ((portal_interface d = None /\ gnome_interface d = None)
        \/ (exists bus p g,
               sessionBus env = Ret bus /\ isConnected bus = Ret true
               /\ session_bus d = Some bus
               /\ portal_interface d = Some p /\ gnome_interface d = Some g
               /\ new_QDBusInterface env "org.freedesktop.portal.Desktop"
                    "/org/freedesktop/portal/desktop"
                    "org.freedesktop.portal.Settings" = Ret p
               /\ new_QDBusInterface env "ca.desrt.dconf"
                    "/ca/desrt/dconf/Writer/user" "ca.desrt.dconf.Writer" = Ret g))
    /\ (forall e, sessionBus env = Raise e -> session_bus d = None).
Proof.
  unfold DBusThemeDetector.__init__, DBusThemeDetector._initialize_dbus.
  unfold bind, get, put, try_except, lift, ret, any_Exception.
  destruct (sessionBus env) as [bus|e] eqn:Hbus; cbn beta iota.
  - destruct (isConnected bus) as [[|]|e] eqn:Hconn; cbn beta iota.
    + destruct (new_QDBusInterface env "org.freedesktop.portal.Desktop" _ _)
        as [p|e] eqn:Hp; cbn beta iota.
      * destruct (new_QDBusInterface env "ca.desrt.dconf" _ _)
          as [g|e] eqn:Hg; cbn beta iota.
        -- eexists. split; [reflexivity|]. split; [reflexivity|]. split.
           ++ right. exists bus, p, g. simpl. auto 10.
           ++ intros e He. discriminate He.
        -- eexists. split; [reflexivity|]. split; [reflexivity|]. split.
           ++ left. simpl. auto.
           ++ intros e' He. discriminate He.
      * eexists. split; [reflexivity|]. split; [reflexivity|]. split.
        -- left. simpl. auto.
        -- intros e' He. discriminate He.
    + eexists. split; [reflexivity|]. split; [reflexivity|]. split.
      * left. simpl. auto.
      * intros e' He. discriminate He.
    + eexists. split; [reflexivity|]. split; [reflexivity|]. split.
      * left. simpl. auto.
      * intros e' He. discriminate He.
  - eexists. split; [reflexivity|]. split; [reflexivity|]. split.
    + left. simpl. auto.
    + intros e' He. reflexivity.
Qed.

Lemma detector_constructed_whole_witness :
  sessionBus (machine_without_bus "'1'") = Raise (OtherException "D-Bus not available")
  /\ exists d,
      fst (DBusThemeDetector.__init__ (machine_without_bus "'1'") initial_world) = Ret d
      /\ session_bus d = None.
Proof.
  split; [reflexivity|].
  destruct (detector_constructed_whole (machine_without_bus "'1'") initial_world)
    as (d & Hrun & _ & _ & Hbus).
  exists d. split.
  - rewrite Hrun. reflexivity.
  - exact (Hbus _ eq_refl).
Defined.

(** ** The detector methods *)

(** X2.  The two detector methods never raise [RuntimeError],
    [AttributeError] or [TypeError]: an exception that leaves them is of
    another class. *)
Theorem detector_methods_contain_dbus_errors self s e :
  (fst (DBusThemeDetector.detect_freedesktop_portal_color_scheme self s) = Raise e ->
   is_dbus_error e = false)
  /\ (fst (DBusThemeDetector.detect_gnome_color_scheme_dbus self s) = Raise e ->
      is_dbus_error e = false).
Proof.
  split.
  - unfold DBusThemeDetector.detect_freedesktop_portal_color_scheme.
    run_cases; simpl; intros Hraise; simplify_eq; auto.
  - unfold DBusThemeDetector.detect_gnome_color_scheme_dbus.
    run_cases; simpl; intros Hraise; simplify_eq; auto.
Qed.

Lemma detector_methods_contain_dbus_errors_witness :
  fst (DBusThemeDetector.detect_freedesktop_portal_color_scheme
         (detector_with (Some broken_interface) None) initial_world)
  = Raise (OtherException "ValueError")
  /\ is_dbus_error (OtherException "ValueError") = false.
Proof.
  split; [reflexivity|].
  apply (proj1 (detector_methods_contain_dbus_errors
                  (detector_with (Some broken_interface) None) initial_world
                  (OtherException "ValueError"))).
  reflexivity.
Defined.

(** X3.  The portal method leaves the module state alone and makes at most
    one D-Bus call, the [Read] of the colour scheme; it makes none when the
    detector has no portal interface or the interface is not valid. *)
Theorem portal_method_calls self s :
  let s1 := snd (DBusThemeDetector.detect_freedesktop_portal_color_scheme self s) in
  _dbus_detector s1 = _dbus_detector s
  /\ next_id s1 = next_id s
  /\ (trace s1 = trace s
      \/ trace s1 = (trace s ++ [EvDBusCall portal_read_args])%list)
  /\ (portal_interface self = None -> s1 = s)
  /\ (forall iface, portal_interface self = Some iface ->
                    isValid iface <> Ret true -> s1 = s).
Proof.
  unfold DBusThemeDetector.detect_freedesktop_portal_color_scheme, portal_read_args.
  run_cases; simplify_eq; simpl;
    repeat split; auto; try congruence;
    try (intros iface Hi Hv; simplify_eq;
         repeat match goal with
                | H : negb ?a = _ |- _ => destruct a; simpl in H; try discriminate H
                end;
         congruence).
Qed.

Lemma portal_method_calls_witness :
  portal_interface (detector_with None None) = None
  /\ snd (DBusThemeDetector.detect_freedesktop_portal_color_scheme
            (detector_with None None) initial_world)
     = initial_world.
Proof.
  split; [reflexivity|].
  apply (proj1 (proj2 (proj2 (proj2 (portal_method_calls
                  (detector_with None None) initial_world))))).
  reflexivity.
Defined.



(** ** Consistency of the strategies *)

(** X5.  The hybrid detectors agree with the pure D-Bus detectors: from
    the same state, when a pure D-Bus detector answers [True] the matching
    hybrid detector answers [True] too, ends in the same state, and so
    starts no subprocess. *)
Theorem dbus_dark_implies_hybrid_dark env s :
  (fst (detect_freedesktop_color_scheme_dbus env s) = Ret true ->
   detect_freedesktop_color_scheme_dark env s
   = detect_freedesktop_color_scheme_dbus env s)
  /\ (fst (detect_gnome_color_scheme_dbus env s) = Ret true ->
      detect_gnome_color_scheme_dark env s
      = detect_gnome_color_scheme_dbus env s).
Proof.
  split.
  - pose proof (freedesktop_hybrid_cases env s) as Hh.
    unfold detect_freedesktop_color_scheme_dbus, try_except_else.
    fold (freedesktop_probe env).
    destruct (freedesktop_probe env s) as [[[[|]|]|e] s1]; simpl;
      try (intros Hr; discriminate Hr).
    + intros _. destruct Hh as [Hh _]. exact Hh.
    + destruct (is_dbus_error e); simpl; intros Hr; discriminate Hr.
  - pose proof (gnome_hybrid_cases env s) as Hh.
    unfold detect_gnome_color_scheme_dbus, try_except_else.
    fold (gnome_probe env).
    destruct (gnome_probe env s) as [[[[|]|]|e] s1]; simpl;
      try (intros Hr; discriminate Hr).
    + intros _. destruct Hh as [Hh _]. exact Hh.
    + destruct (is_dbus_error e); simpl; intros Hr; discriminate Hr.
Qed.

Lemma dbus_dark_implies_hybrid_dark_witness :
  fst (detect_freedesktop_color_scheme_dbus dark_portal_machine initial_world)
  = Ret true
  /\ detect_freedesktop_color_scheme_dark dark_portal_machine initial_world
     = detect_freedesktop_color_scheme_dbus dark_portal_machine initial_world.
Proof.
  split; [reflexivity|].
  apply (proj1 (dbus_dark_implies_hybrid_dark dark_portal_machine initial_world)).
  reflexivity.
Defined.

(** ** The detector singleton across the strategies *)

Lemma portal_method_keeps self s :
  let s1 := snd (DBusThemeDetector.detect_freedesktop_portal_color_scheme self s) in
  _dbus_detector s1 = _dbus_detector s
  /\ constructions (trace s1) = constructions (trace s).
Proof.
  unfold DBusThemeDetector.detect_freedesktop_portal_color_scheme.
  run_cases; simplify_eq; simpl;
    rewrite ?constructions_app, ?app_nil_r; auto.
Qed.

Lemma gnome_method_keeps self s :
  let s1 := snd (DBusThemeDetector.detect_gnome_color_scheme_dbus self s) in
  _dbus_detector s1 = _dbus_detector s
  /\ constructions (trace s1) = constructions (trace s).
Proof.
  unfold DBusThemeDetector.detect_gnome_color_scheme_dbus.
  run_cases; simplify_eq; simpl;
    rewrite ?constructions_app, ?app_nil_r; auto.
Qed.

(** The state reached when [s1] was reached from [s] by
    [get_dbus_detector] and a detector method. *)
Lemma keeps_singleton_intro (f : M world bool) s s1 s2 d :
  match _dbus_detector s with
  | None => trace s1 = (trace s ++ [EvConstruct (next_id s)])%list
            /\ id d = next_id s /\ next_id s1 = S (next_id s)
  | Some d0 => d = d0 /\ s1 = s
  end ->
  _dbus_detector s1 = Some d ->
  _dbus_detector s2 = _dbus_detector s1 ->
  constructions (trace s2) = constructions (trace s1) ->
  _dbus_detector (snd (f s)) = _dbus_detector s2 ->
  constructions (trace (snd (f s))) = constructions (trace s2) ->
  keeps_singleton f s.
Proof.
  intros Hcase Hg1 Hg2 Hc2 Hg Hc. unfold keeps_singleton. cbv zeta.
  rewrite Hg, Hc, Hg2, Hc2, Hg1.
  destruct (_dbus_detector s) as [d0|].
  - destruct Hcase as [-> ->]. auto.
  - destruct Hcase as (Htr & Hid & _). exists d. split; [reflexivity|].
    rewrite Htr, constructions_app, Hid. reflexivity.
Qed.

Ltac keep_solve :=
  run_cases; simplify_eq; simpl;
  rewrite ?constructions_app; simpl; rewrite ?app_nil_r; auto.

(** X6.  Each of the four detectors that use D-Bus keeps the detector
    singleton: it leaves a detector in [_dbus_detector], never replaces
    one that is already there, and constructs one only when there was
    none. *)
Theorem detectors_keep_singleton env s :
  keeps_singleton (detect_freedesktop_color_scheme_dbus env) s
  /\ keeps_singleton (detect_gnome_color_scheme_dbus env) s
  /\ keeps_singleton (detect_freedesktop_color_scheme_dark env) s
  /\ keeps_singleton (detect_gnome_color_scheme_dark env) s.
Proof.
  destruct (get_dbus_detector_spec env s) as (d & s1 & Hget & Hg1 & Hcase).
  pose proof (portal_method_keeps d s1) as [Hpg Hpc].
  pose proof (gnome_method_keeps d s1) as [Hgg Hgc].
  cbv zeta in Hpg, Hpc, Hgg, Hgc.
  split; [|split; [|split]].
  - eapply (keeps_singleton_intro _ s s1 _ d Hcase Hg1 Hpg Hpc);
      unfold detect_freedesktop_color_scheme_dbus, try_except_else, bind;
      rewrite Hget;
      destruct (DBusThemeDetector.detect_freedesktop_portal_color_scheme d s1)
        as [[r|e] s2]; keep_solve.
  - eapply (keeps_singleton_intro _ s s1 _ d Hcase Hg1 Hgg Hgc);
      unfold detect_gnome_color_scheme_dbus, try_except_else, bind;
      rewrite Hget;
      destruct (DBusThemeDetector.detect_gnome_color_scheme_dbus d s1)
        as [[r|e] s2]; keep_solve.
  - eapply (keeps_singleton_intro _ s s1 _ d Hcase Hg1 Hpg Hpc);
      unfold detect_freedesktop_color_scheme_dark, run, try_except, bind;
      rewrite Hget;
      destruct (DBusThemeDetector.detect_freedesktop_portal_color_scheme d s1)
        as [[r|e] s2]; keep_solve.
  - eapply (keeps_singleton_intro _ s s1 _ d Hcase Hg1 Hgg Hgc);
      unfold detect_gnome_color_scheme_dark, gsettings_get, run, try_except, bind;
      rewrite Hget;
      destruct (DBusThemeDetector.detect_gnome_color_scheme_dbus d s1)
        as [[r|e] s2]; keep_solve.
Qed.

(** ** The desktop environment and its wrappers *)

Lemma lower_ascii_idempotent c : lower_ascii (lower_ascii c) = lower_ascii c.
Proof. destruct c as [[] [] [] [] [] [] [] []]; reflexivity. Qed.

Lemma lower_idempotent s : lower (lower s) = lower s.
Proof.
  induction s as [|c s IH]; [reflexivity|].
  simpl. now rewrite lower_ascii_idempotent, IH.
Qed.

Lemma lower_empty s : lower s = EmptyString <-> s = EmptyString.
Proof. destruct s; simpl; split; intros H; try reflexivity; discriminate H. Qed.

Lemma lower_of_idempotent v : lower (lower_of v) = lower_of v.
Proof. destruct v; [apply lower_idempotent | reflexivity]. Qed.

Lemma nonempty_lower_of v :
  nonempty v = true -> lower_of v <> EmptyString.
Proof.
  destruct v as [s|]; simpl; [|discriminate].
  intros H Hl. apply (proj1 (lower_empty s)) in Hl. subst s. discriminate H.
Qed.

(** X7.  The name of the desktop environment is always in lower case,
    whichever variable it is taken from; and it is the empty string exactly
    when XDG_CURRENT_DESKTOP, XDG_SESSION_DESKTOP and DESKTOP_SESSION are
    all unset or empty and KDE_FULL_SESSION is not "true". *)
Theorem desktop_environment_lower_case env :
  lower (get_current_desktop_environment env) = get_current_desktop_environment env
  /\ (get_current_desktop_environment env = EmptyString
      <-> nonempty (environ_get env "XDG_CURRENT_DESKTOP") = false
          /\ environ_get env "KDE_FULL_SESSION" <> Some "true"
          /\ nonempty (environ_get env "XDG_SESSION_DESKTOP") = false
          /\ nonempty (environ_get env "DESKTOP_SESSION") = false).
Proof.
  unfold get_current_desktop_environment. cbv zeta.
  destruct (nonempty (environ_get env "XDG_CURRENT_DESKTOP")) eqn:H1.
  { split; [apply lower_of_idempotent|]. split.
    - intros H. exfalso. exact (nonempty_lower_of _ H1 H).
    - intros (H & _). discriminate H. }
  assert ((match environ_get env "KDE_FULL_SESSION" with
           | Some v => String.eqb v "true"
           | None => false
           end) = true <-> environ_get env "KDE_FULL_SESSION" = Some "true") as Hk.
  { destruct (environ_get env "KDE_FULL_SESSION") as [v|]; split; intros H;
      try discriminate H.
    - apply String.eqb_eq in H. now subst.
    - injection H as ->. reflexivity. }
  destruct (match environ_get env "KDE_FULL_SESSION" with
            | Some v => String.eqb v "true"
            | None => false
            end) eqn:H2.
  { split; [reflexivity|]. split.
    - intros H. discriminate H.
    - intros (_ & H & _). exfalso. apply H. now apply Hk. }
  assert (environ_get env "KDE_FULL_SESSION" <> Some "true") as Hk'.
  { intros H. apply Hk in H. discriminate H. }
  destruct (nonempty (environ_get env "XDG_SESSION_DESKTOP")) eqn:H3.
  { split; [apply lower_of_idempotent|]. split.
    - intros H. exfalso. exact (nonempty_lower_of _ H3 H).
    - intros (_ & _ & H & _). discriminate H. }
  destruct (nonempty (environ_get env "DESKTOP_SESSION")) eqn:H4.
  { split; [apply lower_of_idempotent|]. split.
    - intros H. exfalso. exact (nonempty_lower_of _ H4 H).
    - intros (_ & _ & _ & H). discriminate H. }
  split; [reflexivity|]. split; auto.
Qed.

(** X8.  The four desktop wrappers exclude one another: on any machine at
    least three of them answer [False] at once, touching nothing (no
    subprocess, no file, no D-Bus call, no log line). *)
Theorem desktop_wrappers_exclusive env s :
  let idle (f : M world bool) := f s = (Ret false, s) in
  (idle (detect_kde_dark_wrapper env) /\ idle (detect_xfce_dark_wrapper env)
   /\ idle (detect_lxqt_dark_wrapper env))
  \/ (idle (detect_gnome_dark_wrapper env) /\ idle (detect_xfce_dark_wrapper env)
      /\ idle (detect_lxqt_dark_wrapper env))
  \/ (idle (detect_gnome_dark_wrapper env) /\ idle (detect_kde_dark_wrapper env)
      /\ idle (detect_lxqt_dark_wrapper env))
  \/ (idle (detect_gnome_dark_wrapper env) /\ idle (detect_kde_dark_wrapper env)
      /\ idle (detect_xfce_dark_wrapper env)).
Proof.
  cbv zeta.
  unfold detect_gnome_dark_wrapper, detect_kde_dark_wrapper,
    detect_xfce_dark_wrapper, detect_lxqt_dark_wrapper.
  destruct (String.eqb_spec (get_current_desktop_environment env) "gnome") as [E|_].
  { rewrite E. left. repeat split. }
  destruct (String.eqb_spec (get_current_desktop_environment env) "unity") as [E|_].
  { rewrite E. left. repeat split. }
  destruct (String.eqb_spec (get_current_desktop_environment env) "kde") as [E|_].
  { rewrite E. right. left. repeat split. }
  destruct (String.eqb_spec (get_current_desktop_environment env) "xfce") as [E|_].
  { rewrite E. right. right. left. repeat split. }
  right. right. right. repeat split.
Qed.

(** ** The configuration files of KDE and LXQt *)

Lemma lacks_lstrip c p s : lacks c s = true -> lacks c (lstrip_with p s) = true.
Proof.
  induction s as [|a s IH]; [reflexivity|]. cbn [lstrip_with].
  intros H. destruct (p a); [|exact H].
  cbn [lacks] in H. apply andb_true_iff in H as [_ H]. now apply IH.
Qed.

Lemma lacks_rstrip c p s : lacks c s = true -> lacks c (rstrip_with p s) = true.
Proof.
  induction s as [|a s IH]; [reflexivity|]. cbn [rstrip_with lacks].
  intros H. apply andb_true_iff in H as [Ha H]. specialize (IH H).
  destruct (rstrip_with p s) as [|b r].
  - destruct (p a); [reflexivity|]. cbn [lacks]. now rewrite Ha.
  - cbn [lacks] in *. now rewrite Ha, IH.
Qed.

Lemma lacks_strip c s : lacks c s = true -> lacks c (strip s) = true.
Proof. intros H. unfold strip, strip_with. now apply lacks_rstrip, lacks_lstrip. Qed.

Lemma startswith_lacks c key t :
  startswith key t = true -> lacks c key = false -> lacks c t = false.
Proof.
  revert t. induction key as [|a key IH]; intros t Hs Hk; [discriminate Hk|].
  destruct t as [|b t]; [discriminate Hs|].
  cbn [startswith] in Hs. apply andb_true_iff in Hs as [Hab Hs].
  apply Ascii.eqb_eq in Hab. subst b. cbn [lacks] in *.
  destruct (Ascii.eqb a c); [reflexivity|]. simpl in *. now apply IH.
Qed.

Lemma split1_found sep s :
  lacks sep s = false -> exists v, snd (split1 sep s) = Some v.
Proof.
  induction s as [|a s IH]; [discriminate|]. cbn [lacks split1].
  destruct (Ascii.eqb a sep); simpl; [eauto|].
  intros H. destruct (IH H) as [v Hv]. exists v.
  destruct (split1 sep s) as [x y]. exact Hv.
Qed.

(** A line that passes the [startswith] test has a value: indexing the
    result of [split] never fails. *)
Lemma key_line_has_value key line :
  lacks "="%char key = false ->
  startswith key (strip line) = true ->
  exists v, snd (split1 "="%char line) = Some v.
Proof.
  intros Hk Hs. apply split1_found.
  destruct (lacks "="%char line) eqn:E; [|reflexivity].
  apply lacks_strip in E.
  now rewrite (startswith_lacks _ _ _ Hs Hk) in E.
Qed.

Lemma scan_config_result key what lines s :
  lacks "="%char key = false ->
  fst (scan_config key what lines s)
  = Ret (if List.existsb (line_names_dark key) lines
         then Return true else Fallthrough).
Proof.
  intros Hk. induction lines as [|line rest IH]; [reflexivity|].
  cbn [scan_config List.existsb]. unfold line_names_dark at 1, config_value.
  destruct (startswith key (strip line)) eqn:Hs; [|exact IH].
  destruct (key_line_has_value key line Hk Hs) as [v Hv]. rewrite Hv.
  cbn [andb]. destruct (contains "dark" (lower (strip v))); [reflexivity|exact IH].
Qed.

Lemma scan_file_result env p key what s :
  lacks "="%char key = false ->
  fst (scan_file env p key what s)
  = match open_text env p with
    | Raise e => Raise e
    | Ret (lines, err) =>
        if List.existsb (line_names_dark key) lines then Ret (Return true)
        else match err with
             | Some e => Raise e
             | None => Ret Fallthrough
             end
    end.
Proof.
  intros Hk. unfold scan_file, bind, lift.
  destruct (open_text env p) as [[lines err]|e]; [|reflexivity].
  cbn [fst snd].
  pose proof (scan_config_result key what lines s Hk) as Hscan.
  destruct (scan_config key what lines s) as [r s1]. simpl in Hscan. subst r.
  simpl. destruct (List.existsb (line_names_dark key) lines); [reflexivity|].
  destruct err; reflexivity.
Qed.

(** X9.  The KDE detector answers [True] exactly when [kdeglobals] exists,
    can be opened, and one of the lines read from it starts, once stripped,
    with "ColorScheme=" and has a value that contains "dark" in any case;
    the LXQt detector does the same with the key "theme=" in
    [lxqt/session.conf]. *)
Theorem config_file_detectors_dark env s :
  (fst (detect_kde_colorscheme_dark env s) = Ret true
   <-> path_exists env (kdeglobals_path env) = true
       /\ exists lines err,
           open_text env (kdeglobals_path env) = Ret (lines, err)
           /\ List.existsb (line_names_dark "ColorScheme=") lines = true)
  /\ (fst (detect_lxqt_dark_theme env s) = Ret true
      <-> path_exists env (lxqt_conf_path env) = true
          /\ exists lines err,
              open_text env (lxqt_conf_path env) = Ret (lines, err)
              /\ List.existsb (line_names_dark "theme=") lines = true).
Proof.
  split.
  - unfold detect_kde_colorscheme_dark. fold (kdeglobals_path env). cbv zeta.
    unfold bind at 1. unfold try_except.
    destruct (path_exists env (kdeglobals_path env)).
    + pose proof (scan_file_result env (kdeglobals_path env) "ColorScheme="
                    "KDE ColorScheme" s eq_refl) as Hscan.
      destruct (scan_file env (kdeglobals_path env) "ColorScheme="
                  "KDE ColorScheme" s) as [r s1].
      simpl in Hscan. subst r.
      destruct (open_text env (kdeglobals_path env)) as [[lines err]|e].
      * destruct (List.existsb (line_names_dark "ColorScheme=") lines) eqn:Hex.
        -- simpl. split; [intros _; split; [reflexivity|]; eauto | reflexivity].
        -- split.
           ++ intros H. exfalso. destruct err as [e|]; simpl in H;
                [destruct (is_OSError e)|]; simpl in H; discriminate H.
           ++ intros (_ & l & e' & Ho & He). injection Ho as <- <-. congruence.
      * split.
        -- intros H. exfalso. destruct (is_OSError e); simpl in H; discriminate H.
        -- intros (_ & l & e' & Ho & _). discriminate Ho.
    + simpl. split; [intros H; discriminate H | intros [H _]; discriminate H].
  - unfold detect_lxqt_dark_theme. fold (lxqt_conf_path env). cbv zeta.
    unfold bind at 1. unfold try_except.
    destruct (path_exists env (lxqt_conf_path env)).
    + pose proof (scan_file_result env (lxqt_conf_path env) "theme="
                    "LXQt theme" s eq_refl) as Hscan.
      destruct (scan_file env (lxqt_conf_path env) "theme=" "LXQt theme" s)
        as [r s1].
      simpl in Hscan. subst r.
      destruct (open_text env (lxqt_conf_path env)) as [[lines err]|e].
      * destruct (List.existsb (line_names_dark "theme=") lines) eqn:Hex.
        -- simpl. split; [intros _; split; [reflexivity|]; eauto | reflexivity].
        -- split.
           ++ intros H. exfalso. destruct err as [e|]; simpl in H;
                [destruct (is_OSError e)|]; simpl in H; discriminate H.
           ++ intros (_ & l & e' & Ho & He). injection Ho as <- <-. congruence.
      * split.
        -- intros H. exfalso. destruct (is_OSError e); simpl in H; discriminate H.
        -- intros (_ & l & e' & Ho & _). discriminate Ho.
    + simpl. split; [intros H; discriminate H | intros [H _]; discriminate H].
Qed.

(** ** Strategies that always answer *)











(** ** gsettings_get *)

Lemma first_char_lstrip p s c :
  first_char (lstrip_with p s) = Some c -> p c = false.
Proof.
  induction s as [|a s IH]; [discriminate|]. cbn [lstrip_with].
  destruct (p a) eqn:Ha; [exact IH|].
  intros H. injection H as <-. exact Ha.
Qed.

Lemma first_char_rstrip p s c :
  first_char (rstrip_with p s) = Some c -> first_char s = Some c.
Proof.
  destruct s as [|a s]; [discriminate|]. cbn [rstrip_with].
  destruct (rstrip_with p s); [destruct (p a)|]; simpl; intros H;
    try discriminate H; exact H.
Qed.

Lemma last_char_rstrip p s c :
  last_char (rstrip_with p s) = Some c -> p c = false.
Proof.
  induction s as [|a s IH]; [discriminate|]. cbn [rstrip_with].
  destruct (rstrip_with p s) as [|b r].
  - destruct (p a) eqn:Ha; [discriminate|].
    intros H. injection H as <-. exact Ha.
  - intros H. apply IH. exact H.
Qed.

Lemma strip_with_ends p s c :
  first_char (strip_with p s) = Some c \/ last_char (strip_with p s) = Some c ->
  p c = false.
Proof.
  unfold strip_with. intros [H|H].
  - apply first_char_rstrip in H. now apply first_char_lstrip in H.
  - now apply last_char_rstrip in H.
Qed.

(** X11.  [gsettings_get] runs [gsettings] exactly once and never lets a
    [CalledProcessError] or [FileNotFoundError] out: it returns [None]
    exactly when the subprocess failed in one of these two ways.  A value
    it returns is the output without surrounding blanks and quotes: it
    neither starts nor ends with a quote character. *)
Theorem gsettings_get_value env key s :
  let argv := ["gsettings"; "get"; "org.gnome.desktop.interface"; key] in
  let r := fst (gsettings_get env key s) in
  let s1 := snd (gsettings_get env key s) in
  subprocess_runs (trace s1)
  = (subprocess_runs (trace s) ++ [EvSubprocess argv])%list
  /\ (r = Ret None
      <-> exists e, subprocess_run env argv = Raise e /\ is_subprocess_error e = true)
  /\ (forall e, r = Raise e -> is_subprocess_error e = false)
  /\ (forall v, r = Ret (Some v) ->
        (exists p, subprocess_run env argv = Ret p
                   /\ v = strip_quotes (strip (stdout p)))
        /\ forall c, first_char v = Some c \/ last_char v = Some c ->
                     quote_chars c = false).
Proof.
  cbv zeta. unfold gsettings_get, run, try_except, bind, emit, lift, ret, log_debug.
  cbn beta iota.
  destruct (subprocess_run env _) as [p|e] eqn:Hrun; cbn beta iota.
  - split; [simpl; rewrite subprocess_runs_app; reflexivity|].
    split; [split; [intros H; discriminate H | intros (e & H & _); discriminate H]|].
    split; [intros e H; discriminate H|].
    intros v H. simpl in H. injection H as <-. split; [eauto|].
    intros c Hc. exact (strip_with_ends _ _ _ Hc).
  - destruct (is_subprocess_error e) eqn:He; cbn beta iota.
    + split; [simpl; rewrite !subprocess_runs_app; simpl; apply app_nil_r|].
      split; [split; [eauto | reflexivity]|].
      split; [intros e' H; discriminate H | intros v H; discriminate H].
    + split; [simpl; rewrite subprocess_runs_app; reflexivity|].
      split; [split; [intros H; discriminate H
                     | intros (e' & H & He'); injection H as <-; congruence]|].
      split; [intros e' H; simpl in H; injection H as <-; exact He
             | intros v H; discriminate H].
Qed.

Lemma gsettings_get_value_witness :
  fst (gsettings_get (machine_without_bus "'prefer-dark'") "color-scheme" initial_world)
  = Ret (Some "prefer-dark")
  /\ forall c, first_char "prefer-dark" = Some c \/ last_char "prefer-dark" = Some c ->
               quote_chars c = false.
Proof.
  split; [reflexivity|].
  exact (proj2 (proj2 (proj2 (proj2 (gsettings_get_value
           (machine_without_bus "'prefer-dark'") "color-scheme" initial_world)))
           "prefer-dark" eq_refl)).
Defined.

(** ** The subprocess fallbacks of the hybrid detectors *)

(** X12.  When the D-Bus probe does not settle the answer, the hybrid
    freedesktop detector answers [True] exactly when [gsettings] succeeds
    and prints 1 (blanks and quotes aside); the hybrid GNOME detector
    answers [True] exactly when [gsettings] succeeds and the colour scheme
    it prints contains "dark" in any case. *)
Theorem hybrid_fallback_answers env s :
  ((forall b, fst (freedesktop_probe env s) <> Ret (Some b)) ->
   (fst (detect_freedesktop_color_scheme_dark env s) = Ret true
    <-> exists p, subprocess_run env freedesktop_gsettings_argv = Ret p
                  /\ strip_quotes (strip (stdout p)) = "1"))
  /\ ((forall b, fst (gnome_probe env s) <> Ret (Some b)) ->
      (fst (detect_gnome_color_scheme_dark env s) = Ret true
       <-> exists p, subprocess_run env gnome_gsettings_argv = Ret p
                     /\ contains "dark" (lower (strip_quotes (strip (stdout p))))
                        = true)).
Proof.
  destruct (get_dbus_detector_spec env s) as (d & s1 & Hget & _ & _).
  split.
  - unfold freedesktop_probe, detect_freedesktop_color_scheme_dark, run,
      freedesktop_gsettings_argv.
    unfold bind, try_except, emit, lift, ret, log_debug. rewrite Hget.
    destruct (DBusThemeDetector.detect_freedesktop_portal_color_scheme d s1)
      as [[[b|]|e] s2]; cbn beta iota.
    + intros H. exfalso. exact (H b eq_refl).
    + intros _. destruct (subprocess_run env _) as [p|e]; cbn beta iota.
      * destruct (String.eqb_spec (strip_quotes (strip (stdout p))) "1") as [E|E];
          cbn beta iota.
        -- split; [eauto | reflexivity].
        -- split.
           ++ intros H. exfalso.
              destruct (String.eqb (strip_quotes (strip (stdout p))) "0");
                simpl in H; discriminate H.
           ++ intros (p' & Hp & Hv). injection Hp as <-. contradiction.
      * split.
        -- intros H. exfalso. destruct (is_subprocess_error e); simpl in H;
             discriminate H.
        -- intros (p' & Hp & _). discriminate Hp.
    + intros _. destruct (subprocess_run env _) as [p|e']; cbn beta iota.
      * destruct (String.eqb_spec (strip_quotes (strip (stdout p))) "1") as [E|E];
          cbn beta iota.
        -- split; [eauto | reflexivity].
        -- split.
           ++ intros H. exfalso.
              destruct (String.eqb (strip_quotes (strip (stdout p))) "0");
                simpl in H; discriminate H.
           ++ intros (p' & Hp & Hv). injection Hp as <-. contradiction.
      * split.
        -- intros H. exfalso. destruct (is_subprocess_error e'); simpl in H;
             discriminate H.
        -- intros (p' & Hp & _). discriminate Hp.
  - unfold gnome_probe, detect_gnome_color_scheme_dark, gsettings_get, run,
      gnome_gsettings_argv, str_names_dark.
    unfold bind, try_except, emit, lift, ret, log_debug. rewrite Hget.
    assert (forall v, (negb (String.eqb v EmptyString) && contains "dark" (lower v))%bool
                      = contains "dark" (lower v)) as Hne.
    { intros [|c v]; reflexivity. }
    destruct (DBusThemeDetector.detect_gnome_color_scheme_dbus d s1)
      as [[[b|]|e] s2]; cbn beta iota.
    + intros H. exfalso. exact (H b eq_refl).
    + intros _. destruct (subprocess_run env _) as [p|e]; cbn beta iota.
      * rewrite Hne.
        destruct (contains "dark" (lower (strip_quotes (strip (stdout p))))) eqn:E;
          cbn beta iota.
        -- split; [eauto | reflexivity].
        -- split; [intros H; discriminate H|].
           intros (p' & Hp & Hv). injection Hp as <-. congruence.
      * split.
        -- intros H. exfalso. destruct (is_subprocess_error e); simpl in H;
             discriminate H.
        -- intros (p' & Hp & _). discriminate Hp.
    + intros _. destruct (subprocess_run env _) as [p|e']; cbn beta iota.
      * rewrite Hne.
        destruct (contains "dark" (lower (strip_quotes (strip (stdout p))))) eqn:E;
          cbn beta iota.
        -- split; [eauto | reflexivity].
        -- split; [intros H; discriminate H|].
           intros (p' & Hp & Hv). injection Hp as <-. congruence.
      * split.
        -- intros H. exfalso. destruct (is_subprocess_error e'); simpl in H;
             discriminate H.
        -- intros (p' & Hp & _). discriminate Hp.
Qed.

Lemma hybrid_fallback_answers_witness :
  (forall b, fst (freedesktop_probe (machine_without_bus "'1'") initial_world)
             <> Ret (Some b))
  /\ (fst (detect_freedesktop_color_scheme_dark (machine_without_bus "'1'")
             initial_world) = Ret true
      <-> exists p,
          subprocess_run (machine_without_bus "'1'") freedesktop_gsettings_argv = Ret p
          /\ strip_quotes (strip (stdout p)) = "1").
Proof.
  assert (forall b, fst (freedesktop_probe (machine_without_bus "'1'") initial_world)
                    <> Ret (Some b)) as H
    by (intros b Hb; vm_compute in Hb; discriminate Hb).
  split; [exact H|].
  exact (proj1 (hybrid_fallback_answers (machine_without_bus "'1'") initial_world) H).
Defined.

(* ===================================================================== *)
(** * Properties of the defaulting settings section *)
(* ===================================================================== *)

Section conftest_facts.
Import conftest.
Context {V : Type}.
Context (Option_get : string -> string -> option (Option_ V)).

(** X13.  [remove] never fails and gives a name back to its default:
    afterwards the section holds no value of its own under the name,
    reading it yields the default of the registered option, or [KeyError]
    when none is registered, and every other name reads as before.
    Removing twice is removing once. *)
Theorem section_remove_restores_default (self : _Section V) (name : string) :
  raw_value (remove self name) name = None
  /\ __getitem__ Option_get (remove self name) name
     = match Option_get (_section_name self) name with
       | Some opt => Ret (default_ opt)
       | None => Raise KeyError
       end
  /\ (forall other, other <> name ->
        __getitem__ Option_get (remove self name) other
        = __getitem__ Option_get self other)
  /\ remove (remove self name) name = remove self name.
Proof.
  unfold raw_value, __getitem__, remove. simpl.
  split; [apply lookup_delete_eq|].
  split; [rewrite lookup_delete_eq; reflexivity|].
  split.
  - intros other Hne. rewrite lookup_delete_ne by congruence. reflexivity.
  - f_equal. apply map_eq. intros i.
    destruct (decide (name = i)) as [->|Hne].
    + rewrite !lookup_delete_eq. reflexivity.
    + rewrite !lookup_delete_ne by exact Hne. reflexivity.
Qed.

(** X14.  Reading a name fails with [KeyError] exactly when the section
    holds no value under it and no option is registered for it; a value
    that was set is read back as it is, whatever the default, and setting
    a name changes what no other name reads. *)
Theorem section_getitem_defaulting (self : _Section V) (name : string) :
  (__getitem__ Option_get self name = Raise KeyError
   <-> raw_value self name = None
       /\ Option_get (_section_name self) name = None)
  /\ (forall value,
        __getitem__ Option_get (__setitem__ self name value) name = Ret value)
  /\ (forall value other, other <> name ->
        __getitem__ Option_get (__setitem__ self name value) other
        = __getitem__ Option_get self other).
Proof.
  unfold __getitem__, __setitem__, raw_value. simpl.
  split; [|split].
  - destruct (items self !! name) as [v|].
    + split; [intros H; discriminate H | intros [H _]; discriminate H].
    + destruct (Option_get (_section_name self) name) as [opt|].
      * split; [intros H; discriminate H | intros [_ H]; discriminate H].
      * split; auto.
  - intros value. rewrite lookup_insert_eq. reflexivity.
  - intros value other Hne. rewrite lookup_insert_ne by congruence. reflexivity.
Qed.

End conftest_facts.

Lemma section_remove_restores_default_witness :
  "move_files" <> "rename_files"
  /\ conftest.__getitem__ sample_registry
       (conftest.remove sample_section "rename_files") "move_files"
     = conftest.__getitem__ sample_registry sample_section "move_files".
Proof.
  assert ("move_files" <> "rename_files") as H by discriminate.
  split; [exact H|].
  exact (proj1 (proj2 (proj2 (section_remove_restores_default sample_registry
           sample_section "rename_files"))) "move_files" H).
Defined.

Lemma section_getitem_defaulting_witness :
  "move_files" <> "rename_files"
  /\ conftest.__getitem__ sample_registry
       (conftest.__setitem__ sample_section "rename_files" false) "move_files"
     = conftest.__getitem__ sample_registry sample_section "move_files".
Proof.
  assert ("move_files" <> "rename_files") as H by discriminate.
  split; [exact H|].
  exact (proj2 (proj2 (section_getitem_defaulting sample_registry
           sample_section "rename_files")) false "move_files" H).
Defined.

(** The cases of the docstring of the fixture: a registered option falls
    back to its default, an unknown key raises [KeyError]. *)
Example section_defaults :
  conftest.__getitem__ sample_registry
    (conftest._make_defaulting_section "setting" None) "rename_files" = Ret false
  /\ conftest.__getitem__ sample_registry
       (conftest._make_defaulting_section "setting" None) "no_such_setting"
     = Raise conftest.KeyError
  /\ conftest.__getitem__ sample_registry sample_section "rename_files" = Ret true
  /\ conftest.__getitem__ sample_registry
       (conftest.remove sample_section "rename_files") "rename_files" = Ret false
  /\ conftest.key sample_section "rename_files" = "setting/rename_files".
Proof. repeat split; vm_compute; reflexivity. Qed.
